(** * Dynamic capability resolution: the seven [create_<domain>] factories

    A shallow embedding of [src/core]: the seven abstract base classes
    ([*/base/*.py]) and the seven factory functions ([*/factory.py]) that
    derive a module and a class name from a type string, import the module,
    fetch the class and call it.

    The Python run time the factories rely on is modelled explicitly:
    - a string is the [string] of its UTF-8 bytes; [str.capitalize] and
      [str.lower] follow the interpreter: the first code point in title
      case, the others in lower case, with the full case mappings of the
      Unicode Character Database and the rule of the final sigma;
    - an exception is a value carrying the method resolution order of its
      class, its message and its [__cause__]; the texts of the messages the
      interpreter itself produces are indicative;
    - the importable modules are a finite map from dotted module names to
      module namespaces (the modules whose import succeeds; the module cache
      of the import system is not modelled), the live objects are a heap
      indexed by address;
    - a class has one base, the methods of its body, and an [__init__] that
      either raises or sets attributes; [abc.ABC] and [@abstractmethod] are
      modelled by the set of abstract methods that forbids instantiation;
    - a factory is a computation in a state-and-exception monad over that
      world. *)

From stdpp Require Import base strings gmap list fin_maps fin_sets.
From Stdlib Require Import ZArith Ascii String.

#[local] Set Warnings "-register-all".

(** ** Python strings *)

Module PyStr.

(** A Python string is a sequence of code points; it is kept here as the
    bytes of its UTF-8 form, which is what a string literal of this file
    denotes.  A code point in the surrogate range is kept in the three-byte
    form of the same scheme; a byte that belongs to no such sequence stands
    for itself, as a value past the last code point. *)
Definition raw_byte (n : N) : N := (1114112 + n)%N.

Definition utf8_encode1 (cp : N) : list N :=
  (if cp <? 128 then [cp]
   else if cp <? 2048 then [192 + cp / 64; 128 + cp mod 64]
   else if cp <? 65536 then
     [224 + cp / 4096; 128 + (cp / 64) mod 64; 128 + cp mod 64]
   else if cp <? 1114112 then
     [240 + cp / 262144; 128 + (cp / 4096) mod 64; 128 + (cp / 64) mod 64;
      128 + cp mod 64]
   else [(cp - 1114112) mod 256])%N.

Definition utf8_encode (s : list N) : string :=
  string_of_list_ascii (map ascii_of_N (flat_map utf8_encode1 s)).

(** The end of a multi-byte sequence: its code point if the bytes read are
    the encoding of one, the bytes themselves otherwise. *)
Definition utf8_finish (cp : N) (bytes : list N) : list N :=
  if decide (utf8_encode1 cp = bytes) then [cp] else map raw_byte bytes.

(** Decoding, one byte at a time; [pending] is the sequence being read: the
    bits gathered, the number of bytes still expected, the bytes read. *)
Fixpoint utf8_decode_from (pending : option (N * nat * list N)) (s : string)
    : list N :=
  match s with
  | EmptyString =>
      match pending with
      | Some (_, _, bytes) => map raw_byte bytes
      | None => []
      end
  | String b r =>
      let n := N_of_ascii b in
      let start :=
        if (n <? 128)%N then n :: utf8_decode_from None r
        else if ((194 <=? n) && (n <? 224))%N then
          utf8_decode_from (Some ((n - 192)%N, 1%nat, [n])) r
        else if ((224 <=? n) && (n <? 240))%N then
          utf8_decode_from (Some ((n - 224)%N, 2%nat, [n])) r
        else if ((240 <=? n) && (n <? 245))%N then
          utf8_decode_from (Some ((n - 240)%N, 3%nat, [n])) r
        else raw_byte n :: utf8_decode_from None r in
      match pending with
      | None => start
      | Some (acc, need, bytes) =>
          if ((128 <=? n) && (n <? 192))%N then
            match need with
            | 0%nat | 1%nat =>
                utf8_finish (acc * 64 + (n - 128))%N (bytes ++ [n])
                ++ utf8_decode_from None r
            | S need' =>
                utf8_decode_from
                  (Some ((acc * 64 + (n - 128))%N, need', bytes ++ [n])) r
            end
          else map raw_byte bytes ++ start
      end
  end.

Definition utf8_decode (s : string) : list N := utf8_decode_from None s.

(** The case data of the Unicode Character Database, version 14.0, in
    the form the interpreter consults them.  A line [(lo, hi, step, image)]
    sends the code points [lo], [lo + step], ..., [hi] to [image],
    [image + step], ...; the code points of the special tables have an image
    of several characters. *)
Definition title_special : list (N * list N) :=
  [
   (223, [83; 115]); (329, [700; 78]); (496, [74; 780]);
   (912, [921; 776; 769]); (944, [933; 776; 769]); (1415, [1333; 1410]);
   (7830, [72; 817]); (7831, [84; 776]); (7832, [87; 778]);
   (7833, [89; 778]); (7834, [65; 702]); (8016, [933; 787]);
   (8018, [933; 787; 768]); (8020, [933; 787; 769]); (8022, [933; 787; 834]);
   (8114, [8122; 837]); (8116, [902; 837]); (8118, [913; 834]);
   (8119, [913; 834; 837]); (8130, [8138; 837]); (8132, [905; 837]);
   (8134, [919; 834]); (8135, [919; 834; 837]); (8146, [921; 776; 768]);
   (8147, [921; 776; 769]); (8150, [921; 834]); (8151, [921; 776; 834]);
   (8162, [933; 776; 768]); (8163, [933; 776; 769]); (8164, [929; 787]);
   (8166, [933; 834]); (8167, [933; 776; 834]); (8178, [8186; 837]);
   (8180, [911; 837]); (8182, [937; 834]); (8183, [937; 834; 837]);
   (64256, [70; 102]); (64257, [70; 105]); (64258, [70; 108]);
   (64259, [70; 102; 105]); (64260, [70; 102; 108]); (64261, [83; 116]);
   (64262, [83; 116]); (64275, [1348; 1398]); (64276, [1348; 1381]);
   (64277, [1348; 1387]); (64278, [1358; 1398]); (64279, [1348; 1389])
  ]%N.

Definition title_ranges : list (N * N * N * N) :=
  [
   (97, 122, 1, 65); (181, 181, 1, 924); (224, 246, 1, 192);
   (248, 254, 1, 216); (255, 255, 1, 376); (257, 303, 2, 256);
   (305, 305, 1, 73); (307, 311, 2, 306); (314, 328, 2, 313);
   (331, 375, 2, 330); (378, 382, 2, 377); (383, 383, 1, 83);
   (384, 384, 1, 579); (387, 389, 2, 386); (392, 392, 1, 391);
   (396, 396, 1, 395); (402, 402, 1, 401); (405, 405, 1, 502);
   (409, 409, 1, 408); (410, 410, 1, 573); (414, 414, 1, 544);
   (417, 421, 2, 416); (424, 424, 1, 423); (429, 429, 1, 428);
   (432, 432, 1, 431); (436, 438, 2, 435); (441, 441, 1, 440);
   (445, 445, 1, 444); (447, 447, 1, 503); (452, 452, 1, 453);
   (454, 454, 1, 453); (455, 455, 1, 456); (457, 457, 1, 456);
   (458, 458, 1, 459); (460, 476, 2, 459); (477, 477, 1, 398);
   (479, 495, 2, 478); (497, 497, 1, 498); (499, 501, 2, 498);
   (505, 543, 2, 504); (547, 563, 2, 546); (572, 572, 1, 571);
   (575, 576, 1, 11390); (578, 578, 1, 577); (583, 591, 2, 582);
   (592, 592, 1, 11375); (593, 593, 1, 11373); (594, 594, 1, 11376);
   (595, 595, 1, 385); (596, 596, 1, 390); (598, 599, 1, 393);
   (601, 601, 1, 399); (603, 603, 1, 400); (604, 604, 1, 42923);
   (608, 608, 1, 403); (609, 609, 1, 42924); (611, 611, 1, 404);
   (613, 613, 1, 42893); (614, 614, 1, 42922); (616, 616, 1, 407);
   (617, 617, 1, 406); (618, 618, 1, 42926); (619, 619, 1, 11362);
   (620, 620, 1, 42925); (623, 623, 1, 412); (625, 625, 1, 11374);
   (626, 626, 1, 413); (629, 629, 1, 415); (637, 637, 1, 11364);
   (640, 640, 1, 422); (642, 642, 1, 42949); (643, 643, 1, 425);
   (647, 647, 1, 42929); (648, 648, 1, 430); (649, 649, 1, 580);
   (650, 651, 1, 433); (652, 652, 1, 581); (658, 658, 1, 439);
   (669, 669, 1, 42930); (670, 670, 1, 42928); (837, 837, 1, 921);
   (881, 883, 2, 880); (887, 887, 1, 886); (891, 893, 1, 1021);
   (940, 940, 1, 902); (941, 943, 1, 904); (945, 961, 1, 913);
   (962, 962, 1, 931); (963, 971, 1, 931); (972, 972, 1, 908);
   (973, 974, 1, 910); (976, 976, 1, 914); (977, 977, 1, 920);
   (981, 981, 1, 934); (982, 982, 1, 928); (983, 983, 1, 975);
   (985, 1007, 2, 984); (1008, 1008, 1, 922); (1009, 1009, 1, 929);
   (1010, 1010, 1, 1017); (1011, 1011, 1, 895); (1013, 1013, 1, 917);
   (1016, 1016, 1, 1015); (1019, 1019, 1, 1018); (1072, 1103, 1, 1040);
   (1104, 1119, 1, 1024); (1121, 1153, 2, 1120); (1163, 1215, 2, 1162);
   (1218, 1230, 2, 1217); (1231, 1231, 1, 1216); (1233, 1327, 2, 1232);
   (1377, 1414, 1, 1329); (5112, 5117, 1, 5104); (7296, 7296, 1, 1042);
   (7297, 7297, 1, 1044); (7298, 7298, 1, 1054); (7299, 7300, 1, 1057);
   (7301, 7301, 1, 1058); (7302, 7302, 1, 1066); (7303, 7303, 1, 1122);
   (7304, 7304, 1, 42570); (7545, 7545, 1, 42877); (7549, 7549, 1, 11363);
   (7566, 7566, 1, 42950); (7681, 7829, 2, 7680); (7835, 7835, 1, 7776);
   (7841, 7935, 2, 7840); (7936, 7943, 1, 7944); (7952, 7957, 1, 7960);
   (7968, 7975, 1, 7976); (7984, 7991, 1, 7992); (8000, 8005, 1, 8008);
   (8017, 8023, 2, 8025); (8032, 8039, 1, 8040); (8048, 8049, 1, 8122);
   (8050, 8053, 1, 8136); (8054, 8055, 1, 8154); (8056, 8057, 1, 8184);
   (8058, 8059, 1, 8170); (8060, 8061, 1, 8186); (8064, 8071, 1, 8072);
   (8080, 8087, 1, 8088); (8096, 8103, 1, 8104); (8112, 8113, 1, 8120);
   (8115, 8115, 1, 8124); (8126, 8126, 1, 921); (8131, 8131, 1, 8140);
   (8144, 8145, 1, 8152); (8160, 8161, 1, 8168); (8165, 8165, 1, 8172);
   (8179, 8179, 1, 8188); (8526, 8526, 1, 8498); (8560, 8575, 1, 8544);
   (8580, 8580, 1, 8579); (9424, 9449, 1, 9398); (11312, 11359, 1, 11264);
   (11361, 11361, 1, 11360); (11365, 11365, 1, 570); (11366, 11366, 1, 574);
   (11368, 11372, 2, 11367); (11379, 11379, 1, 11378);
   (11382, 11382, 1, 11381); (11393, 11491, 2, 11392);
   (11500, 11502, 2, 11499); (11507, 11507, 1, 11506);
   (11520, 11557, 1, 4256); (11559, 11559, 1, 4295); (11565, 11565, 1, 4301);
   (42561, 42605, 2, 42560); (42625, 42651, 2, 42624);
   (42787, 42799, 2, 42786); (42803, 42863, 2, 42802);
   (42874, 42876, 2, 42873); (42879, 42887, 2, 42878);
   (42892, 42892, 1, 42891); (42897, 42899, 2, 42896);
   (42900, 42900, 1, 42948); (42903, 42921, 2, 42902);
   (42933, 42947, 2, 42932); (42952, 42954, 2, 42951);
   (42961, 42961, 1, 42960); (42967, 42969, 2, 42966);
   (42998, 42998, 1, 42997); (43859, 43859, 1, 42931);
   (43888, 43967, 1, 5024); (65345, 65370, 1, 65313);
   (66600, 66639, 1, 66560); (66776, 66811, 1, 66736);
   (66967, 66977, 1, 66928); (66979, 66993, 1, 66940);
   (66995, 67001, 1, 66956); (67003, 67004, 1, 66964);
   (68800, 68850, 1, 68736); (71872, 71903, 1, 71840);
   (93792, 93823, 1, 93760); (125218, 125251, 1, 125184)
  ]%N.

Definition lower_special : list (N * list N) :=
  [
   (304, [105; 775])
  ]%N.

Definition lower_ranges : list (N * N * N * N) :=
  [
   (65, 90, 1, 97); (192, 214, 1, 224); (216, 222, 1, 248);
   (256, 302, 2, 257); (306, 310, 2, 307); (313, 327, 2, 314);
   (330, 374, 2, 331); (376, 376, 1, 255); (377, 381, 2, 378);
   (385, 385, 1, 595); (386, 388, 2, 387); (390, 390, 1, 596);
   (391, 391, 1, 392); (393, 394, 1, 598); (395, 395, 1, 396);
   (398, 398, 1, 477); (399, 399, 1, 601); (400, 400, 1, 603);
   (401, 401, 1, 402); (403, 403, 1, 608); (404, 404, 1, 611);
   (406, 406, 1, 617); (407, 407, 1, 616); (408, 408, 1, 409);
   (412, 412, 1, 623); (413, 413, 1, 626); (415, 415, 1, 629);
   (416, 420, 2, 417); (422, 422, 1, 640); (423, 423, 1, 424);
   (425, 425, 1, 643); (428, 428, 1, 429); (430, 430, 1, 648);
   (431, 431, 1, 432); (433, 434, 1, 650); (435, 437, 2, 436);
   (439, 439, 1, 658); (440, 440, 1, 441); (444, 444, 1, 445);
   (452, 452, 1, 454); (453, 453, 1, 454); (455, 455, 1, 457);
   (456, 456, 1, 457); (458, 458, 1, 460); (459, 475, 2, 460);
   (478, 494, 2, 479); (497, 497, 1, 499); (498, 500, 2, 499);
   (502, 502, 1, 405); (503, 503, 1, 447); (504, 542, 2, 505);
   (544, 544, 1, 414); (546, 562, 2, 547); (570, 570, 1, 11365);
   (571, 571, 1, 572); (573, 573, 1, 410); (574, 574, 1, 11366);
   (577, 577, 1, 578); (579, 579, 1, 384); (580, 580, 1, 649);
   (581, 581, 1, 652); (582, 590, 2, 583); (880, 882, 2, 881);
   (886, 886, 1, 887); (895, 895, 1, 1011); (902, 902, 1, 940);
   (904, 906, 1, 941); (908, 908, 1, 972); (910, 911, 1, 973);
   (913, 929, 1, 945); (931, 939, 1, 963); (975, 975, 1, 983);
   (984, 1006, 2, 985); (1012, 1012, 1, 952); (1015, 1015, 1, 1016);
   (1017, 1017, 1, 1010); (1018, 1018, 1, 1019); (1021, 1023, 1, 891);
   (1024, 1039, 1, 1104); (1040, 1071, 1, 1072); (1120, 1152, 2, 1121);
   (1162, 1214, 2, 1163); (1216, 1216, 1, 1231); (1217, 1229, 2, 1218);
   (1232, 1326, 2, 1233); (1329, 1366, 1, 1377); (4256, 4293, 1, 11520);
   (4295, 4295, 1, 11559); (4301, 4301, 1, 11565); (5024, 5103, 1, 43888);
   (5104, 5109, 1, 5112); (7312, 7354, 1, 4304); (7357, 7359, 1, 4349);
   (7680, 7828, 2, 7681); (7838, 7838, 1, 223); (7840, 7934, 2, 7841);
   (7944, 7951, 1, 7936); (7960, 7965, 1, 7952); (7976, 7983, 1, 7968);
   (7992, 7999, 1, 7984); (8008, 8013, 1, 8000); (8025, 8031, 2, 8017);
   (8040, 8047, 1, 8032); (8072, 8079, 1, 8064); (8088, 8095, 1, 8080);
   (8104, 8111, 1, 8096); (8120, 8121, 1, 8112); (8122, 8123, 1, 8048);
   (8124, 8124, 1, 8115); (8136, 8139, 1, 8050); (8140, 8140, 1, 8131);
   (8152, 8153, 1, 8144); (8154, 8155, 1, 8054); (8168, 8169, 1, 8160);
   (8170, 8171, 1, 8058); (8172, 8172, 1, 8165); (8184, 8185, 1, 8056);
   (8186, 8187, 1, 8060); (8188, 8188, 1, 8179); (8486, 8486, 1, 969);
   (8490, 8490, 1, 107); (8491, 8491, 1, 229); (8498, 8498, 1, 8526);
   (8544, 8559, 1, 8560); (8579, 8579, 1, 8580); (9398, 9423, 1, 9424);
   (11264, 11311, 1, 11312); (11360, 11360, 1, 11361);
   (11362, 11362, 1, 619); (11363, 11363, 1, 7549); (11364, 11364, 1, 637);
   (11367, 11371, 2, 11368); (11373, 11373, 1, 593); (11374, 11374, 1, 625);
   (11375, 11375, 1, 592); (11376, 11376, 1, 594); (11378, 11378, 1, 11379);
   (11381, 11381, 1, 11382); (11390, 11391, 1, 575);
   (11392, 11490, 2, 11393); (11499, 11501, 2, 11500);
   (11506, 11506, 1, 11507); (42560, 42604, 2, 42561);
   (42624, 42650, 2, 42625); (42786, 42798, 2, 42787);
   (42802, 42862, 2, 42803); (42873, 42875, 2, 42874);
   (42877, 42877, 1, 7545); (42878, 42886, 2, 42879);
   (42891, 42891, 1, 42892); (42893, 42893, 1, 613);
   (42896, 42898, 2, 42897); (42902, 42920, 2, 42903);
   (42922, 42922, 1, 614); (42923, 42923, 1, 604); (42924, 42924, 1, 609);
   (42925, 42925, 1, 620); (42926, 42926, 1, 618); (42928, 42928, 1, 670);
   (42929, 42929, 1, 647); (42930, 42930, 1, 669); (42931, 42931, 1, 43859);
   (42932, 42946, 2, 42933); (42948, 42948, 1, 42900);
   (42949, 42949, 1, 642); (42950, 42950, 1, 7566); (42951, 42953, 2, 42952);
   (42960, 42960, 1, 42961); (42966, 42968, 2, 42967);
   (42997, 42997, 1, 42998); (65313, 65338, 1, 65345);
   (66560, 66599, 1, 66600); (66736, 66771, 1, 66776);
   (66928, 66938, 1, 66967); (66940, 66954, 1, 66979);
   (66956, 66962, 1, 66995); (66964, 66965, 1, 67003);
   (68736, 68786, 1, 68800); (71840, 71871, 1, 71872);
   (93760, 93791, 1, 93792); (125184, 125217, 1, 125218)
  ]%N.

(** The code points with the property Case_Ignorable, as intervals. *)
Definition case_ignorable_ranges : list (N * N) :=
  [
   (39, 39); (46, 46); (58, 58); (94, 94); (96, 96); (168, 168); (173, 173);
   (175, 175); (180, 180); (183, 184); (688, 879); (884, 885); (890, 890);
   (900, 901); (903, 903); (1155, 1161); (1369, 1369); (1375, 1375);
   (1425, 1469); (1471, 1471); (1473, 1474); (1476, 1477); (1479, 1479);
   (1524, 1524); (1536, 1541); (1552, 1562); (1564, 1564); (1600, 1600);
   (1611, 1631); (1648, 1648); (1750, 1757); (1759, 1768); (1770, 1773);
   (1807, 1807); (1809, 1809); (1840, 1866); (1958, 1968); (2027, 2037);
   (2042, 2042); (2045, 2045); (2070, 2093); (2137, 2139); (2184, 2184);
   (2192, 2193); (2200, 2207); (2249, 2306); (2362, 2362); (2364, 2364);
   (2369, 2376); (2381, 2381); (2385, 2391); (2402, 2403); (2417, 2417);
   (2433, 2433); (2492, 2492); (2497, 2500); (2509, 2509); (2530, 2531);
   (2558, 2558); (2561, 2562); (2620, 2620); (2625, 2626); (2631, 2632);
   (2635, 2637); (2641, 2641); (2672, 2673); (2677, 2677); (2689, 2690);
   (2748, 2748); (2753, 2757); (2759, 2760); (2765, 2765); (2786, 2787);
   (2810, 2815); (2817, 2817); (2876, 2876); (2879, 2879); (2881, 2884);
   (2893, 2893); (2901, 2902); (2914, 2915); (2946, 2946); (3008, 3008);
   (3021, 3021); (3072, 3072); (3076, 3076); (3132, 3132); (3134, 3136);
   (3142, 3144); (3146, 3149); (3157, 3158); (3170, 3171); (3201, 3201);
   (3260, 3260); (3263, 3263); (3270, 3270); (3276, 3277); (3298, 3299);
   (3328, 3329); (3387, 3388); (3393, 3396); (3405, 3405); (3426, 3427);
   (3457, 3457); (3530, 3530); (3538, 3540); (3542, 3542); (3633, 3633);
   (3636, 3642); (3654, 3662); (3761, 3761); (3764, 3772); (3782, 3782);
   (3784, 3789); (3864, 3865); (3893, 3893); (3895, 3895); (3897, 3897);
   (3953, 3966); (3968, 3972); (3974, 3975); (3981, 3991); (3993, 4028);
   (4038, 4038); (4141, 4144); (4146, 4151); (4153, 4154); (4157, 4158);
   (4184, 4185); (4190, 4192); (4209, 4212); (4226, 4226); (4229, 4230);
   (4237, 4237); (4253, 4253); (4348, 4348); (4957, 4959); (5906, 5908);
   (5938, 5939); (5970, 5971); (6002, 6003); (6068, 6069); (6071, 6077);
   (6086, 6086); (6089, 6099); (6103, 6103); (6109, 6109); (6155, 6159);
   (6211, 6211); (6277, 6278); (6313, 6313); (6432, 6434); (6439, 6440);
   (6450, 6450); (6457, 6459); (6679, 6680); (6683, 6683); (6742, 6742);
   (6744, 6750); (6752, 6752); (6754, 6754); (6757, 6764); (6771, 6780);
   (6783, 6783); (6823, 6823); (6832, 6862); (6912, 6915); (6964, 6964);
   (6966, 6970); (6972, 6972); (6978, 6978); (7019, 7027); (7040, 7041);
   (7074, 7077); (7080, 7081); (7083, 7085); (7142, 7142); (7144, 7145);
   (7149, 7149); (7151, 7153); (7212, 7219); (7222, 7223); (7288, 7293);
   (7376, 7378); (7380, 7392); (7394, 7400); (7405, 7405); (7412, 7412);
   (7416, 7417); (7468, 7530); (7544, 7544); (7579, 7679); (8125, 8125);
   (8127, 8129); (8141, 8143); (8157, 8159); (8173, 8175); (8189, 8190);
   (8203, 8207); (8216, 8217); (8228, 8228); (8231, 8231); (8234, 8238);
   (8288, 8292); (8294, 8303); (8305, 8305); (8319, 8319); (8336, 8348);
   (8400, 8432); (11388, 11389); (11503, 11505); (11631, 11631);
   (11647, 11647); (11744, 11775); (11823, 11823); (12293, 12293);
   (12330, 12333); (12337, 12341); (12347, 12347); (12441, 12446);
   (12540, 12542); (40981, 40981); (42232, 42237); (42508, 42508);
   (42607, 42610); (42612, 42621); (42623, 42623); (42652, 42655);
   (42736, 42737); (42752, 42785); (42864, 42864); (42888, 42890);
   (42994, 42996); (43000, 43001); (43010, 43010); (43014, 43014);
   (43019, 43019); (43045, 43046); (43052, 43052); (43204, 43205);
   (43232, 43249); (43263, 43263); (43302, 43309); (43335, 43345);
   (43392, 43394); (43443, 43443); (43446, 43449); (43452, 43453);
   (43471, 43471); (43493, 43494); (43561, 43566); (43569, 43570);
   (43573, 43574); (43587, 43587); (43596, 43596); (43632, 43632);
   (43644, 43644); (43696, 43696); (43698, 43700); (43703, 43704);
   (43710, 43711); (43713, 43713); (43741, 43741); (43756, 43757);
   (43763, 43764); (43766, 43766); (43867, 43871); (43881, 43883);
   (44005, 44005); (44008, 44008); (44013, 44013); (64286, 64286);
   (64434, 64450); (65024, 65039); (65043, 65043); (65056, 65071);
   (65106, 65106); (65109, 65109); (65279, 65279); (65287, 65287);
   (65294, 65294); (65306, 65306); (65342, 65342); (65344, 65344);
   (65392, 65392); (65438, 65439); (65507, 65507); (65529, 65531);
   (66045, 66045); (66272, 66272); (66422, 66426); (67456, 67461);
   (67463, 67504); (67506, 67514); (68097, 68099); (68101, 68102);
   (68108, 68111); (68152, 68154); (68159, 68159); (68325, 68326);
   (68900, 68903); (69291, 69292); (69446, 69456); (69506, 69509);
   (69633, 69633); (69688, 69702); (69744, 69744); (69747, 69748);
   (69759, 69761); (69811, 69814); (69817, 69818); (69821, 69821);
   (69826, 69826); (69837, 69837); (69888, 69890); (69927, 69931);
   (69933, 69940); (70003, 70003); (70016, 70017); (70070, 70078);
   (70089, 70092); (70095, 70095); (70191, 70193); (70196, 70196);
   (70198, 70199); (70206, 70206); (70367, 70367); (70371, 70378);
   (70400, 70401); (70459, 70460); (70464, 70464); (70502, 70508);
   (70512, 70516); (70712, 70719); (70722, 70724); (70726, 70726);
   (70750, 70750); (70835, 70840); (70842, 70842); (70847, 70848);
   (70850, 70851); (71090, 71093); (71100, 71101); (71103, 71104);
   (71132, 71133); (71219, 71226); (71229, 71229); (71231, 71232);
   (71339, 71339); (71341, 71341); (71344, 71349); (71351, 71351);
   (71453, 71455); (71458, 71461); (71463, 71467); (71727, 71735);
   (71737, 71738); (71995, 71996); (71998, 71998); (72003, 72003);
   (72148, 72151); (72154, 72155); (72160, 72160); (72193, 72202);
   (72243, 72248); (72251, 72254); (72263, 72263); (72273, 72278);
   (72281, 72283); (72330, 72342); (72344, 72345); (72752, 72758);
   (72760, 72765); (72767, 72767); (72850, 72871); (72874, 72880);
   (72882, 72883); (72885, 72886); (73009, 73014); (73018, 73018);
   (73020, 73021); (73023, 73029); (73031, 73031); (73104, 73105);
   (73109, 73109); (73111, 73111); (73459, 73460); (78896, 78904);
   (92912, 92916); (92976, 92982); (92992, 92995); (94031, 94031);
   (94095, 94111); (94176, 94177); (94179, 94180); (110576, 110579);
   (110581, 110587); (110589, 110590); (113821, 113822); (113824, 113827);
   (118528, 118573); (118576, 118598); (119143, 119145); (119155, 119170);
   (119173, 119179); (119210, 119213); (119362, 119364); (121344, 121398);
   (121403, 121452); (121461, 121461); (121476, 121476); (121499, 121503);
   (121505, 121519); (122880, 122886); (122888, 122904); (122907, 122913);
   (122915, 122916); (122918, 122922); (123184, 123197); (123566, 123566);
   (123628, 123631); (125136, 125142); (125252, 125259); (127995, 127999);
   (917505, 917505); (917536, 917631); (917760, 917999)
  ]%N.

(** The code points with the property Cased that are not Case_Ignorable. *)
Definition cased_ranges : list (N * N) :=
  [
   (65, 90); (97, 122); (170, 170); (181, 181); (186, 186); (192, 214);
   (216, 246); (248, 442); (444, 447); (452, 659); (661, 687); (880, 883);
   (886, 887); (891, 893); (895, 895); (902, 902); (904, 906); (908, 908);
   (910, 929); (931, 1013); (1015, 1153); (1162, 1327); (1329, 1366);
   (1376, 1416); (4256, 4293); (4295, 4295); (4301, 4301); (4304, 4346);
   (4349, 4351); (5024, 5109); (5112, 5117); (7296, 7304); (7312, 7354);
   (7357, 7359); (7424, 7467); (7531, 7543); (7545, 7578); (7680, 7957);
   (7960, 7965); (7968, 8005); (8008, 8013); (8016, 8023); (8025, 8025);
   (8027, 8027); (8029, 8029); (8031, 8061); (8064, 8116); (8118, 8124);
   (8126, 8126); (8130, 8132); (8134, 8140); (8144, 8147); (8150, 8155);
   (8160, 8172); (8178, 8180); (8182, 8188); (8450, 8450); (8455, 8455);
   (8458, 8467); (8469, 8469); (8473, 8477); (8484, 8484); (8486, 8486);
   (8488, 8488); (8490, 8493); (8495, 8500); (8505, 8505); (8508, 8511);
   (8517, 8521); (8526, 8526); (8544, 8575); (8579, 8580); (9398, 9449);
   (11264, 11387); (11390, 11492); (11499, 11502); (11506, 11507);
   (11520, 11557); (11559, 11559); (11565, 11565); (42560, 42605);
   (42624, 42651); (42786, 42863); (42865, 42887); (42891, 42894);
   (42896, 42954); (42960, 42961); (42963, 42963); (42965, 42969);
   (42997, 42998); (43002, 43002); (43824, 43866); (43872, 43880);
   (43888, 43967); (64256, 64262); (64275, 64279); (65313, 65338);
   (65345, 65370); (66560, 66639); (66736, 66771); (66776, 66811);
   (66928, 66938); (66940, 66954); (66956, 66962); (66964, 66965);
   (66967, 66977); (66979, 66993); (66995, 67001); (67003, 67004);
   (68736, 68786); (68800, 68850); (71840, 71903); (93760, 93823);
   (119808, 119892); (119894, 119964); (119966, 119967); (119970, 119970);
   (119973, 119974); (119977, 119980); (119982, 119993); (119995, 119995);
   (119997, 120003); (120005, 120069); (120071, 120074); (120077, 120084);
   (120086, 120092); (120094, 120121); (120123, 120126); (120128, 120132);
   (120134, 120134); (120138, 120144); (120146, 120485); (120488, 120512);
   (120514, 120538); (120540, 120570); (120572, 120596); (120598, 120628);
   (120630, 120654); (120656, 120686); (120688, 120712); (120714, 120744);
   (120746, 120770); (120772, 120779); (122624, 122633); (122635, 122654);
   (125184, 125251); (127280, 127305); (127312, 127337); (127344, 127369)
  ]%N.

Definition in_ranges (ranges : list (N * N)) (c : N) : bool :=
  existsb (λ '(lo, hi), (lo <=? c) && (c <=? hi))%N ranges.

Definition case_map (special : list (N * list N))
    (ranges : list (N * N * N * N)) (c : N) : list N :=
  match find (λ '(k, _), (k =? c)%N) special with
  | Some (_, image) => image
  | None =>
      match
        find (λ '(lo, hi, step, _),
                (lo <=? c) && (c <=? hi) && ((c - lo) mod step =? 0))%N ranges
      with
      | Some (lo, _, _, image) => [(image + (c - lo))%N]
      | None => [c]
      end
  end.

(** The full title-case and lower-case mappings of a code point. *)
Definition to_title_full : N → list N := case_map title_special title_ranges.

Definition to_lower_full : N → list N := case_map lower_special lower_ranges.

Definition is_case_ignorable : N → bool := in_ranges case_ignorable_ranges.

(** Consulted on code points that are not case-ignorable only. *)
Definition is_cased : N → bool := in_ranges cased_ranges.

Fixpoint skip_case_ignorable (s : list N) : list N :=
  match s with
  | c :: r => if is_case_ignorable c then skip_case_ignorable r else s
  | [] => []
  end.

(** The capital sigma is final when a cased character comes before it, and
    none after it, case-ignorable characters not counting.  [before] holds
    the characters before it, the nearest first. *)
Definition final_sigma (before after : list N) : bool :=
  match skip_case_ignorable before with
  | c :: _ => is_cased c
  | [] => false
  end &&
  match skip_case_ignorable after with
  | c :: _ => negb (is_cased c)
  | [] => true
  end.

(** The lower case of one character of a string. *)
Definition lower_ucs4 (before : list N) (c : N) (after : list N) : list N :=
  if (c =? 931)%N then [if final_sigma before after then 962%N else 963%N]
  else to_lower_full c.

Fixpoint do_lower (before s : list N) : list N :=
  match s with
  | [] => []
  | c :: after => lower_ucs4 before c after ++ do_lower (c :: before) after
  end.

(** The first character in title case, the others in lower case. *)
Definition do_capitalize (s : list N) : list N :=
  match s with
  | [] => []
  | c :: rest => to_title_full c ++ do_lower [c] rest
  end.

(** [str.lower]. *)
Definition lower (s : string) : string :=
  utf8_encode (do_lower [] (utf8_decode s)).

(** [str.capitalize]. *)
Definition capitalize (s : string) : string :=
  utf8_encode (do_capitalize (utf8_decode s)).

(** [str.isascii]. *)
Fixpoint isascii (s : string) : bool :=
  match s with
  | EmptyString => true
  | String c r => (N_of_ascii c <? 128)%N && isascii r
  end.

(** The upper case and the lower case of an ASCII character. *)
Definition is_ascii_lower (c : ascii) : bool :=
  (97 <=? nat_of_ascii c)%nat && (nat_of_ascii c <=? 122)%nat.

Definition is_ascii_upper (c : ascii) : bool :=
  (65 <=? nat_of_ascii c)%nat && (nat_of_ascii c <=? 90)%nat.

Definition chr_upper (c : ascii) : ascii :=
  if is_ascii_lower c then ascii_of_nat (nat_of_ascii c - 32) else c.

Definition chr_lower (c : ascii) : ascii :=
  if is_ascii_upper c then ascii_of_nat (nat_of_ascii c + 32) else c.

(** The lower case of a string of ASCII characters. *)
Fixpoint ascii_lower (s : string) : string :=
  match s with
  | EmptyString => EmptyString
  | String c r => String (chr_lower c) (ascii_lower r)
  end.

(** [repr] of a string without quotes or backslashes in it. *)
Definition repr (s : string) : string := "'" +:+ s +:+ "'".

End PyStr.

(** ** Exceptions *)

(** An exception instance: the names of the classes in the method resolution
    order of its class (most derived first), the message it was built with,
    and [__cause__] as set by [raise ... from ...]. *)
Inductive pyexc : Type :=
  PyExc { exc_mro : list string; exc_msg : string; exc_cause : option pyexc }.

Module Exc.

Definition Exception_mro : list string :=
  ["Exception"; "BaseException"; "object"].

Definition ImportError (msg : string) : pyexc :=
  PyExc ("ImportError" :: Exception_mro) msg None.

Definition ModuleNotFoundError (msg : string) : pyexc :=
  PyExc ("ModuleNotFoundError" :: "ImportError" :: Exception_mro) msg None.

Definition AttributeError (msg : string) : pyexc :=
  PyExc ("AttributeError" :: Exception_mro) msg None.

Definition ValueError (msg : string) : pyexc :=
  PyExc ("ValueError" :: Exception_mro) msg None.

Definition TypeError (msg : string) : pyexc :=
  PyExc ("TypeError" :: Exception_mro) msg None.

Definition RuntimeError (msg : string) : pyexc :=
  PyExc ("RuntimeError" :: Exception_mro) msg None.

(** [isinstance(e, cls)]. *)
Definition isinstance (e : pyexc) (cls : string) : bool :=
  bool_decide (cls ∈ exc_mro e).

(** The test of [except (C1, ..., Cn)]. *)
Definition caught_by (classes : list string) (e : pyexc) : bool :=
  existsb (isinstance e) classes.

(** [raise new from e]. *)
Definition from (new e : pyexc) : pyexc :=
  PyExc (exc_mro new) (exc_msg new) (Some e).

End Exc.

(** The outcome of a call: a value, or an exception in flight. *)
Inductive result (A : Type) : Type :=
| Return (a : A)
| Raise (e : pyexc).
Arguments Return {A} a.
Arguments Raise {A} e.

(** ** Values, classes and the heap *)

Inductive pyval : Type :=
| VNone
| VStr (s : string)
| VInt (n : Z)
| VRef (addr : nat).

(** What a [def] in a class body binds: a method decorated with
    [@abstractmethod] or an ordinary one. *)
Inductive member : Type := AbstractMethod | ConcreteMethod.

#[global] Instance member_eq_dec : EqDecision member.
Proof. solve_decision. Defined.

(** A class statement: its name, its base (single inheritance; [None] for a
    direct child of [object]), the methods its body defines, and what its
    effective [__init__] does with the arguments of a call: raise, or set
    attributes on the new object. *)
Inductive pyclass : Type :=
  PyClass {
    cls_name : string;
    cls_base : option pyclass;
    cls_dict : gmap string member;
    cls_init : list pyval → result (list (string * pyval))
  }.

Record pyinst : Type := PyInst {
  inst_class : pyclass;
  inst_attrs : list (string * pyval)
}.

(** The heap: the address of an object is its index. *)
Abbreviation heap := (list pyinst).

Module Class.

(** Attribute lookup along the chain of bases. *)
Fixpoint getattr (c : pyclass) (name : string) : option member :=
  match c with
  | PyClass _ base dict _ =>
      match dict !! name with
      | Some m => Some m
      | None =>
          match base with
          | Some b => getattr b name
          | None => None
          end
      end
  end.

(** [issubclass(c, b)]: [b] is [c] or one of its ancestors, by name. *)
Fixpoint issubclass (c : pyclass) (b : string) : bool :=
  match c with
  | PyClass name base _ _ =>
      String.eqb name b ||
      match base with
      | Some c' => issubclass c' b
      | None => false
      end
  end.

(** The names a class body binds to abstract methods. *)
Definition own_abstract (dict : gmap string member) : gset string :=
  dom (filter (λ kv, kv.2 = AbstractMethod) dict).

(** [__abstractmethods__], as [ABCMeta.__new__] computes it: the abstract
    names of the class body, and those of the base that still resolve to
    an abstract method.  A class outside the [ABC] hierarchy has none. *)
Fixpoint abstractmethods (c : pyclass) : gset string :=
  if issubclass c "ABC" then
    match c with
    | PyClass _ base dict _ =>
        own_abstract dict ∪
        match base with
        | Some b =>
            filter (λ n, getattr c n = Some AbstractMethod) (abstractmethods b)
        | None => ∅
        end
    end
  else ∅.

(** [b] is a proper ancestor of [c]. *)
Fixpoint inherits (c b : pyclass) : Prop :=
  match c with
  | PyClass _ base _ _ =>
      match base with
      | Some p => p = b ∨ inherits p b
      | None => False
      end
  end.

(** The object provides [name] as a usable operation. *)
Definition provides (c : pyclass) (name : string) : Prop :=
  getattr c name = Some ConcreteMethod.

End Class.

(** ** The world and the monad of Python computations *)

(** What a name of a module can be bound to: a class as a [class] statement
    makes it, any other callable (a function, a class that builds its
    instances itself), or a value that cannot be called. *)
Inductive pyobj : Type :=
| OClass (c : pyclass)
| OFunction (f : list pyval → heap → result pyval * heap)
| OValue (v : pyval).

(** A module object: its dotted name and its namespace. *)
Record pymodule : Type := PyModule {
  mod_name : string;
  mod_dict : gmap string pyobj
}.

(** What the interpreter can import, by dotted name, and the live objects. *)
Record world : Type := World {
  w_modules : gmap string pymodule;
  w_heap : heap
}.

Definition py (A : Type) : Type := world → result A * world.

Definition ret {A} (a : A) : py A := λ w, (Return a, w).

Definition raise {A} (e : pyexc) : py A := λ w, (Raise e, w).

Definition bind {A B} (m : py A) (k : A → py B) : py B :=
  λ w, match m w with
       | (Return a, w') => k a w'
       | (Raise e, w') => (Raise e, w')
       end.

Notation "'let*' x ':=' m 'in' k" := (bind m (λ x, k))
  (at level 10, x name, m at level 100, k at level 200).

(** [try: body except classes as e: handler e]. *)
Definition try_except {A} (body : py A) (classes : list string)
    (handler : pyexc → py A) : py A :=
  λ w, match body w with
       | (Return a, w') => (Return a, w')
       | (Raise e, w') =>
           if Exc.caught_by classes e then handler e w' else (Raise e, w')
       end.

(** [raise new from e]. *)
Definition raise_from {A} (new e : pyexc) : py A := raise (Exc.from new e).

(** ** The run-time services the factories call *)

Module importlib.

(** [importlib.import_module(name)] for an absolute name: the module of
    that name, or [ModuleNotFoundError] (a subclass of [ImportError]).  The
    table of the world holds the modules whose import succeeds, under their
    full dotted names. *)
Definition import_module (name : string) : py pymodule :=
  λ w, match w_modules w !! name with
       | Some m => (Return m, w)
       | None =>
           (Raise (Exc.ModuleNotFoundError
                     ("No module named " +:+ PyStr.repr name)), w)
       end.

End importlib.

(** [getattr(module, name)]. *)
Definition getattr (module : pymodule) (name : string) : py pyobj :=
  match mod_dict module !! name with
  | Some o => ret o
  | None =>
      raise (Exc.AttributeError
               ("module " +:+ PyStr.repr (mod_name module) +:+
                " has no attribute " +:+ PyStr.repr name))
  end.

(** Calling a class: [object.__new__] refuses a class that still has abstract
    methods with a [TypeError]; otherwise [__init__] runs on the arguments
    and, unless it raises, the new object lives at the next free address. *)
Definition instantiate (c : pyclass) (args : list pyval) : py pyval :=
  λ w,
    if decide (Class.abstractmethods c = ∅) then
      match cls_init c args with
      | Return attrs =>
          (Return (VRef (List.length (w_heap w))),
           World (w_modules w) (w_heap w ++ [PyInst c attrs]))
      | Raise e => (Raise e, w)
      end
    else
      (Raise (Exc.TypeError
                ("Can't instantiate abstract class " +:+ cls_name c)), w).

(** A call [callee(a1, ..., an)]. *)
Definition call (callee : pyobj) (args : list pyval) : py pyval :=
  match callee with
  | OClass c => instantiate c args
  | OFunction f =>
      λ w, match f args (w_heap w) with
           | (Return v, h) => (Return v, World (w_modules w) h)
           | (Raise e, h) => (Raise e, World (w_modules w) h)
           end
  | OValue _ => raise (Exc.TypeError "object is not callable")
  end.

(** ** The abstract base classes and the factories, package by package *)

(** [abc.ABC], the root of the abstract base classes. *)
Definition object_init (args : list pyval) : result (list (string * pyval)) :=
  match args with
  | [] => Return []
  | _ => Raise (Exc.TypeError "object() takes no arguments")
  end.

Definition ABC : pyclass := PyClass "ABC" None ∅ object_init.

(** The exception classes every factory names in its [except] clause. *)
Definition lookup_errors : list string := ["ImportError"; "AttributeError"].

Module core_message_broker.

(** [core/message_broker/base/broker.py] *)
Definition MessageBroker : pyclass :=
  PyClass "MessageBroker" (Some ABC)
    (list_to_map [("publish", AbstractMethod); ("subscribe", AbstractMethod);
                  ("start", AbstractMethod); ("stop", AbstractMethod)])
    object_init.

(** [core/message_broker/factory.py] *)
Definition module_name (broker_type : string) : string :=
  "implementations." +:+ broker_type +:+ "_broker".

Definition class_name (broker_type : string) : string :=
  PyStr.capitalize broker_type +:+ "Broker".

Definition create_message_broker (broker_type : string) (broker_url : string)
    : py pyval :=
  let module_name := module_name broker_type in
  let class_name := class_name broker_type in
  try_except
    (let* module := importlib.import_module module_name in
     let* broker_class := getattr module class_name in
     call broker_class [VStr broker_url])
    lookup_errors
    (λ e, raise_from
            (Exc.ValueError ("Unsupported broker type: " +:+ broker_type)) e).

End core_message_broker.

Module core_api_gateway.

(** [core/api_gateway/base/gateway.py] *)
Definition ApiGateway : pyclass :=
  PyClass "ApiGateway" (Some ABC)
    (list_to_map [("add_service", AbstractMethod); ("add_route", AbstractMethod)])
    object_init.

(** [core/api_gateway/factory.py] *)
Definition module_name (gateway_type : string) : string :=
  "implementations." +:+ gateway_type +:+ "_gateway".

Definition class_name (gateway_type : string) : string :=
  PyStr.capitalize gateway_type +:+ "Gateway".

Definition create_api_gateway (gateway_type : string) (admin_url : string)
    : py pyval :=
  let module_name := module_name gateway_type in
  let class_name := class_name gateway_type in
  try_except
    (let* module := importlib.import_module module_name in
     let* gateway_class := getattr module class_name in
     call gateway_class [VStr admin_url])
    lookup_errors
    (λ e, raise_from
            (Exc.ValueError ("Unsupported gateway type: " +:+ gateway_type)) e).

End core_api_gateway.

Module core_logging.

(** [core/logging/base/logger.py] *)
Definition Logger : pyclass :=
  PyClass "Logger" (Some ABC) {["setup" := AbstractMethod]} object_init.

(** [core/logging/factory.py] *)
Definition module_name (logger_type : string) : string :=
  "implementations." +:+ logger_type +:+ "_logger".

Definition class_name (logger_type : string) : string :=
  PyStr.capitalize logger_type +:+ "Logger".

Definition create_logger (logger_type : string) (host : string) (port : Z)
    : py pyval :=
  let module_name := module_name logger_type in
  let class_name := class_name logger_type in
  try_except
    (let* module := importlib.import_module module_name in
     let* logger_class := getattr module class_name in
     call logger_class [VStr host; VInt port])
    lookup_errors
    (λ e, raise_from
            (Exc.ValueError ("Unsupported logger type: " +:+ logger_type)) e).

End core_logging.

Module core_security.

(** [core/security/base/security.py] *)
Definition Security : pyclass :=
  PyClass "Security" (Some ABC) {["start" := AbstractMethod]} object_init.

(** [core/security/factory.py] *)
Definition module_name (security_type : string) : string :=
  "implementations." +:+ security_type +:+ "_security".

Definition class_name (security_type : string) : string :=
  PyStr.capitalize security_type +:+ "Security".

Definition create_security (security_type : string) (port : Z)
    : py pyval :=
  let module_name := module_name security_type in
  let class_name := class_name security_type in
  try_except
    (let* module := importlib.import_module module_name in
     let* security_class := getattr module class_name in
     call security_class [VInt port])
    lookup_errors
    (λ e, raise_from
            (Exc.ValueError ("Unsupported security type: " +:+ security_type)) e).

End core_security.

Module core_microservice.

(** [core/microservice/base/microservice.py] *)
Definition Microservice : pyclass :=
  PyClass "Microservice" (Some ABC) {["create_app" := AbstractMethod]} object_init.

(** [core/microservice/factory.py] *)
Definition module_name (service_type : string) : string :=
  "implementations." +:+ service_type +:+ "_service".

Definition class_name (service_type : string) : string :=
  PyStr.capitalize service_type +:+ "Service".

Definition create_microservice (service_type : string)
    : py pyval :=
  let module_name := module_name service_type in
  let class_name := class_name service_type in
  try_except
    (let* module := importlib.import_module module_name in
     let* service_class := getattr module class_name in
     call service_class [])
    lookup_errors
    (λ e, raise_from
            (Exc.ValueError ("Unsupported service type: " +:+ service_type)) e).

End core_microservice.

Module core_database.

(** [core/database/base/database.py] *)
Definition Database : pyclass :=
  PyClass "Database" (Some ABC) {["get_session" := AbstractMethod]} object_init.

(** [core/database/factory.py] *)
Definition module_name (database_type : string) : string :=
  "implementations." +:+ database_type +:+ "_database".

Definition class_name (database_type : string) : string :=
  PyStr.capitalize database_type +:+ "Database".

Definition create_database (database_type : string) (db_url : string)
    : py pyval :=
  let module_name := module_name database_type in
  let class_name := class_name database_type in
  try_except
    (let* module := importlib.import_module module_name in
     let* database_class := getattr module class_name in
     call database_class [VStr db_url])
    lookup_errors
    (λ e, raise_from
            (Exc.ValueError ("Unsupported database type: " +:+ database_type)) e).

End core_database.

Module core_cache.

(** [core/cache/base/cache.py] *)
Definition Cache : pyclass :=
  PyClass "Cache" (Some ABC) {["get_client" := AbstractMethod]} object_init.

(** [core/cache/factory.py] *)
Definition module_name (cache_type : string) : string :=
  "implementations." +:+ cache_type +:+ "_cache".

Definition class_name (cache_type : string) : string :=
  PyStr.capitalize cache_type +:+ "Cache".

Definition create_cache (cache_type : string) (cache_url : string)
    : py pyval :=
  let module_name := module_name cache_type in
  let class_name := class_name cache_type in
  try_except
    (let* module := importlib.import_module module_name in
     let* cache_class := getattr module class_name in
     call cache_class [VStr cache_url])
    lookup_errors
    (λ e, raise_from
            (Exc.ValueError ("Unsupported cache type: " +:+ cache_type)) e).

End core_cache.

(** ** The caller surface: one factory per capability domain *)

Inductive domain : Type :=
| broker | gateway | logger | security | microservice | database | cache.

#[global] Instance domain_eq_dec : EqDecision domain.
Proof. solve_decision. Defined.

(** A call of one of the seven factories exported by [core/__init__.py]. *)
Inductive request : Type :=
| ReqBroker (broker_type broker_url : string)
| ReqGateway (gateway_type admin_url : string)
| ReqLogger (logger_type host : string) (port : Z)
| ReqSecurity (security_type : string) (port : Z)
| ReqMicroservice (service_type : string)
| ReqDatabase (database_type db_url : string)
| ReqCache (cache_type cache_url : string).

Definition req_domain (r : request) : domain :=
  match r with
  | ReqBroker _ _ => broker
  | ReqGateway _ _ => gateway
  | ReqLogger _ _ _ => logger
  | ReqSecurity _ _ => security
  | ReqMicroservice _ => microservice
  | ReqDatabase _ _ => database
  | ReqCache _ _ => cache
  end.

Definition req_type_name (r : request) : string :=
  match r with
  | ReqBroker t _ | ReqGateway t _ | ReqLogger t _ _ | ReqSecurity t _
  | ReqMicroservice t | ReqDatabase t _ | ReqCache t _ => t
  end.

Definition create (r : request) : py pyval :=
  match r with
  | ReqBroker t url => core_message_broker.create_message_broker t url
  | ReqGateway t url => core_api_gateway.create_api_gateway t url
  | ReqLogger t host port => core_logging.create_logger t host port
  | ReqSecurity t port => core_security.create_security t port
  | ReqMicroservice t => core_microservice.create_microservice t
  | ReqDatabase t url => core_database.create_database t url
  | ReqCache t url => core_cache.create_cache t url
  end.

(** The names each factory derives, and the base class of its package. *)
Definition module_name_of (d : domain) : string → string :=
  match d with
  | broker => core_message_broker.module_name
  | gateway => core_api_gateway.module_name
  | logger => core_logging.module_name
  | security => core_security.module_name
  | microservice => core_microservice.module_name
  | database => core_database.module_name
  | cache => core_cache.module_name
  end.

Definition class_name_of (d : domain) : string → string :=
  match d with
  | broker => core_message_broker.class_name
  | gateway => core_api_gateway.class_name
  | logger => core_logging.class_name
  | security => core_security.class_name
  | microservice => core_microservice.class_name
  | database => core_database.class_name
  | cache => core_cache.class_name
  end.

Definition interface (d : domain) : pyclass :=
  match d with
  | broker => core_message_broker.MessageBroker
  | gateway => core_api_gateway.ApiGateway
  | logger => core_logging.Logger
  | security => core_security.Security
  | microservice => core_microservice.Microservice
  | database => core_database.Database
  | cache => core_cache.Cache
  end.

(** The word a factory uses for its domain: the suffix of the module name
    and the noun of its error message. *)
Definition factory_word (d : domain) : string :=
  match d with
  | broker => "broker"
  | gateway => "gateway"
  | logger => "logger"
  | security => "security"
  | microservice => "service"
  | database => "database"
  | cache => "cache"
  end.

(** The message of the error a factory raises from its [except] clause. *)
Definition unsupported_message (d : domain) (type_name : string) : string :=
  "Unsupported " +:+ factory_word d +:+ " type: " +:+ type_name.

(** The error raised from the [except] clause when [e] was caught. *)
Definition unsupported_error (d : domain) (type_name : string) (e : pyexc)
    : pyexc :=
  Exc.from (Exc.ValueError (unsupported_message d type_name)) e.

(** The implementation registered for [(d, type_name)]: what the import and
    the attribute lookup of the factory of [d] find, if anything. *)
Definition registry (w : world) (d : domain) (type_name : string)
    : option pyobj :=
  m ← w_modules w !! module_name_of d type_name;
  mod_dict m !! class_name_of d type_name.

(** The [try]/[except] of the factory of [d] around a body. *)
Definition guarded (d : domain) (type_name : string) (body : py pyval)
    : py pyval :=
  try_except body lookup_errors
    (λ e, raise_from (Exc.ValueError (unsupported_message d type_name)) e).

(** What a caller can read off the [__cause__] of a raised error. *)
Inductive lookup_failure : Type := MissingModule | MissingClass.

Definition diagnose (x : pyexc) : option lookup_failure :=
  match exc_cause x with
  | Some e =>
      if Exc.isinstance e "ImportError" then Some MissingModule
      else if Exc.isinstance e "AttributeError" then Some MissingClass
      else None
  | None => None
  end.

(** ** The words of the specification *)

(** The name of each capability domain. *)
Definition domain_name (d : domain) : string :=
  match d with
  | broker => "broker"
  | gateway => "gateway"
  | logger => "logger"
  | security => "security"
  | microservice => "microservice"
  | database => "database"
  | cache => "cache"
  end.

(** Identifier derivation as the specification words it: module
    [implementations.<type_name>_<domain>], class the capitalized type name
    followed by the capitalized domain name. *)
Definition spec_module_name (d : domain) (type_name : string) : string :=
  "implementations." +:+ type_name +:+ "_" +:+ domain_name d.

Definition spec_class_name (d : domain) (type_name : string) : string :=
  PyStr.capitalize type_name +:+ PyStr.capitalize (domain_name d).

(** The operations of each capability interface. *)
Definition operations (d : domain) : list string :=
  match d with
  | broker => ["publish"; "subscribe"; "start"; "stop"]
  | gateway => ["add_service"; "add_route"]
  | logger => ["setup"]
  | security => ["start"]
  | microservice => ["create_app"]
  | database => ["get_session"]
  | cache => ["get_client"]
  end.

(** The constructor arguments of each domain: broker(url),
    gateway(admin_url), logger(host, port), security(port), microservice(),
    database(db_url), cache(cache_url). *)
Definition observed_args (r : request) : list pyval :=
  match r with
  | ReqBroker _ url => [VStr url]
  | ReqGateway _ admin_url => [VStr admin_url]
  | ReqLogger _ host port => [VStr host; VInt port]
  | ReqSecurity _ port => [VInt port]
  | ReqMicroservice _ => []
  | ReqDatabase _ db_url => [VStr db_url]
  | ReqCache _ cache_url => [VStr cache_url]
  end.

(** ** The shape shared by the seven factories *)

(** Import the module, fetch the class, call it; wrap the lookup errors. *)
Definition resolve (module_name class_name : string) (args : list pyval)
    (unsupported : pyexc) : py pyval :=
  try_except
    (let* module := importlib.import_module module_name in
     let* impl_class := getattr module class_name in
     call impl_class args)
    lookup_errors
    (λ e, raise_from unsupported e).


(** ** Sample implementation packages *)

Module Samples.

(** An [__init__(self, url)] that keeps the URL. *)
Definition keep_url (args : list pyval) : result (list (string * pyval)) :=
  match args with
  | [VStr url] => Return [("url", VStr url)]
  | _ => Raise (Exc.TypeError "__init__() takes 2 positional arguments")
  end.

(** [implementations/redis_cache.py]: a complete cache. *)
Definition RedisCache : pyclass :=
  PyClass "RedisCache" (Some core_cache.Cache)
    {["get_client" := ConcreteMethod]} keep_url.

Definition redis_world : world :=
  World {["implementations.redis_cache" :=
            PyModule "implementations.redis_cache"
              {["RedisCache" := OClass RedisCache]}]} [].

(** The same module name with nothing of the expected name inside. *)
Definition hollow_world : world :=
  World {["implementations.redis_cache" :=
            PyModule "implementations.redis_cache"
              {["Redis" := OClass RedisCache]}]} [].

(** Nothing importable at all. *)
Definition bare_world : world := World ∅ [].

(** A cache whose constructor cannot reach its server. *)
Definition RefusedCache : pyclass :=
  PyClass "RedisCache" (Some core_cache.Cache)
    {["get_client" := ConcreteMethod]}
    (λ _, Raise (Exc.RuntimeError "connection refused")).

Definition refused_world : world :=
  World {["implementations.redis_cache" :=
            PyModule "implementations.redis_cache"
              {["RedisCache" := OClass RefusedCache]}]} [].

(** A cache whose constructor trips over a missing attribute. *)
Definition SloppyCache : pyclass :=
  PyClass "RedisCache" (Some core_cache.Cache)
    {["get_client" := ConcreteMethod]}
    (λ _, Raise (Exc.AttributeError
                   "'NoneType' object has no attribute 'connect'")).

Definition sloppy_world : world :=
  World {["implementations.redis_cache" :=
            PyModule "implementations.redis_cache"
              {["RedisCache" := OClass SloppyCache]}]} [].

(** [implementations/fastapi_service.py]. *)
Definition FastapiService : pyclass :=
  PyClass "FastapiService" (Some core_microservice.Microservice)
    {["create_app" := ConcreteMethod]} object_init.

Definition fastapi_world : world :=
  World {["implementations.fastapi_service" :=
            PyModule "implementations.fastapi_service"
              {["FastapiService" := OClass FastapiService]}]} [].

(** The same class filed under the names the domain name would give. *)
Definition misfiled_world : world :=
  World {["implementations.fastapi_microservice" :=
            PyModule "implementations.fastapi_microservice"
              {["FastapiMicroservice" := OClass FastapiService]}]} [].

(** A callable that keeps what it was called with. *)
Definition Recorder : pyclass := PyClass "Recorder" None ∅ object_init.

Definition record : pyobj :=
  OFunction (λ args h,
    (Return (VRef (List.length h)),
     h ++ [PyInst Recorder (map (λ v, ("arg", v)) args)])).

(** One module per domain, each binding the derived class name of the type
    [demo] to [record]. *)
Definition demo_world : world :=
  World
    (list_to_map
       (map (λ '(mn, cn), (mn, PyModule mn {[cn := record]}))
          [("implementations.demo_broker", "DemoBroker");
           ("implementations.demo_gateway", "DemoGateway");
           ("implementations.demo_logger", "DemoLogger");
           ("implementations.demo_security", "DemoSecurity");
           ("implementations.demo_service", "DemoService");
           ("implementations.demo_database", "DemoDatabase");
           ("implementations.demo_cache", "DemoCache")]))
    [].

End Samples.

(** ** Further sample packages *)

Module Fixtures.

(** [implementations/half_broker.py]: a broker that stops half way, with
    [start] and [stop] left as the base class declares them. *)
Definition HalfBroker : pyclass :=
  PyClass "HalfBroker" (Some core_message_broker.MessageBroker)
    (list_to_map [("publish", ConcreteMethod); ("subscribe", ConcreteMethod)])
    Samples.keep_url.

Definition half_world : world :=
  World {["implementations.half_broker" :=
            PyModule "implementations.half_broker"
              {["HalfBroker" := OClass HalfBroker]}]} [].

(** A cache whose constructor imports its client library lazily, on a
    machine where that library is not installed. *)
Definition LazyCache : pyclass :=
  PyClass "RedisCache" (Some core_cache.Cache)
    {["get_client" := ConcreteMethod]}
    (λ _, Raise (Exc.ModuleNotFoundError "No module named 'redis'")).

Definition lazy_world : world :=
  World {["implementations.redis_cache" :=
            PyModule "implementations.redis_cache"
              {["RedisCache" := OClass LazyCache]}]} [].

(** A module that binds the derived name to a function returning a string. *)
Definition stringly_world : world :=
  World {["implementations.text_logger" :=
            PyModule "implementations.text_logger"
              {["TextLogger" :=
                  OFunction (λ _ h, (Return (VStr "not a logger"), h))]}]} [].

End Fixtures.

(** ** Facts about the shared shape *)

Lemma create_resolve (r : request) :
  create r =
  resolve (module_name_of (req_domain r) (req_type_name r))
          (class_name_of (req_domain r) (req_type_name r))
          (observed_args r)
          (Exc.ValueError
             (unsupported_message (req_domain r) (req_type_name r))).
Proof. destruct r; reflexivity. Qed.

Section Resolve.

Variables (mn cn : string) (args : list pyval) (u : pyexc).

Lemma resolve_module_missing (w : world) :
  w_modules w !! mn = None →
  resolve mn cn args u w =
  (Raise (Exc.from u (Exc.ModuleNotFoundError
                        ("No module named " +:+ PyStr.repr mn))), w).
Proof.
  intros Hm. unfold resolve, try_except, bind, importlib.import_module.
  rewrite Hm. reflexivity.
Qed.

Lemma resolve_class_missing (w : world) (m : pymodule) :
  w_modules w !! mn = Some m →
  mod_dict m !! cn = None →
  resolve mn cn args u w =
  (Raise (Exc.from u (Exc.AttributeError
                        ("module " +:+ PyStr.repr (mod_name m) +:+
                         " has no attribute " +:+ PyStr.repr cn))), w).
Proof.
  intros Hm Hc.
  unfold resolve, try_except, bind, importlib.import_module, getattr.
  rewrite Hm, Hc. reflexivity.
Qed.

Lemma resolve_found (w : world) (m : pymodule) (o : pyobj) :
  w_modules w !! mn = Some m →
  mod_dict m !! cn = Some o →
  resolve mn cn args u w =
  try_except (call o args) lookup_errors (λ e, raise_from u e) w.
Proof.
  intros Hm Hc.
  unfold resolve, try_except, bind, importlib.import_module, getattr.
  rewrite Hm, Hc. reflexivity.
Qed.

End Resolve.

(** Calls never rebind a module. *)
Lemma call_modules (o : pyobj) (args : list pyval) (w : world) :
  w_modules (call o args w).2 = w_modules w.
Proof.
  destruct o as [c|f|v]; simpl.
  - unfold instantiate. case_decide; [|reflexivity].
    destruct (cls_init c args); reflexivity.
  - destruct (f args (w_heap w)) as [[v|e] h]; reflexivity.
  - reflexivity.
Qed.

Lemma try_except_modules {A} (body : py A) (u : pyexc) (w : world) :
  w_modules (try_except body lookup_errors (λ e, raise_from u e) w).2 =
  w_modules (body w).2.
Proof.
  unfold try_except. destruct (body w) as [[a|e] w']; [reflexivity|].
  destruct (Exc.caught_by lookup_errors e); reflexivity.
Qed.

Lemma resolve_modules mn cn args u (w : world) :
  w_modules (resolve mn cn args u w).2 = w_modules w.
Proof.
  destruct (w_modules w !! mn) as [m|] eqn:Hm.
  - destruct (mod_dict m !! cn) as [o|] eqn:Hc.
    + rewrite (resolve_found _ _ _ _ _ _ _ Hm Hc).
      rewrite try_except_modules. apply call_modules.
    + rewrite (resolve_class_missing _ _ _ _ _ _ Hm Hc). reflexivity.
  - rewrite (resolve_module_missing _ _ _ _ _ Hm). reflexivity.
Qed.

(** ** Abstract methods *)

Lemma pyclass_chain_ind (P : pyclass → Prop) :
  (∀ n d i, P (PyClass n None d i)) →
  (∀ n b d i, P b → P (PyClass n (Some b) d i)) →
  ∀ c, P c.
Proof.
  intros Hroot Hstep. fix IH 1.
  intros [n [b|] d i]; [apply Hstep, IH | apply Hroot].
Qed.

Lemma elem_of_own_abstract (d : gmap string member) (x : string) :
  x ∈ Class.own_abstract d ↔ d !! x = Some AbstractMethod.
Proof.
  unfold Class.own_abstract. rewrite elem_of_dom. split.
  - intros [v Hv]. apply map_lookup_filter_Some in Hv as [Hv Hp].
    simpl in Hp. by subst.
  - intros Hx. exists AbstractMethod. by apply map_lookup_filter_Some.
Qed.

Lemma inherits_issubclass_ABC (c : pyclass) :
  Class.inherits c ABC → Class.issubclass c "ABC" = true.
Proof.
  induction c as [n d i|n b d i IH] using pyclass_chain_ind; simpl.
  - intros [].
  - intros [->|Hb].
    + simpl. apply orb_true_r.
    + rewrite (IH Hb). apply orb_true_r.
Qed.

Lemma abstractmethods_unfold n base d i :
  Class.abstractmethods (PyClass n base d i) =
  if Class.issubclass (PyClass n base d i) "ABC" then
    Class.own_abstract d ∪
    match base with
    | Some b =>
        filter (λ x, Class.getattr (PyClass n base d i) x = Some AbstractMethod)
               (Class.abstractmethods b)
    | None => ∅
    end
  else ∅.
Proof. reflexivity. Qed.

(** Below [ABC], every name that still resolves to an abstract method is
    recorded in [__abstractmethods__]. *)
Lemma abstractmethods_complete (c : pyclass) :
  c = ABC ∨ Class.inherits c ABC →
  ∀ x, Class.getattr c x = Some AbstractMethod → x ∈ Class.abstractmethods c.
Proof.
  induction c as [n d i|n b d i IH] using pyclass_chain_ind.
  - intros [->|[]] x Hx. vm_compute in Hx. discriminate.
  - intros [Heq|Hin] x Hx; [discriminate Heq|].
    rewrite abstractmethods_unfold.
    rewrite (inherits_issubclass_ABC _ Hin).
    apply elem_of_union.
    simpl in Hx. destruct (d !! x) as [m|] eqn:Hd.
    + left. apply elem_of_own_abstract. congruence.
    + right. apply elem_of_filter. split.
      * simpl. by rewrite Hd.
      * apply IH; [|exact Hx]. destruct Hin as [->|Hb]; auto.
Qed.

(** A name bound somewhere up the chain resolves to something below. *)
Lemma getattr_inherits (c b : pyclass) (x : string) :
  Class.inherits c b →
  is_Some (Class.getattr b x) → is_Some (Class.getattr c x).
Proof.
  induction c as [n d i|n p d i IH] using pyclass_chain_ind; simpl.
  - intros [].
  - intros Hin Hb. destruct (d !! x); [eauto|].
    destruct Hin as [->|Hp]; auto.
Qed.

Lemma inherits_trans (c b a : pyclass) :
  Class.inherits c b → Class.inherits b a → Class.inherits c a.
Proof.
  induction c as [n d i|n p d i IH] using pyclass_chain_ind; simpl.
  - intros [].
  - intros [->|Hp] Hba; auto.
Qed.

Lemma interface_inherits_ABC (d : domain) : Class.inherits (interface d) ABC.
Proof. destruct d; simpl; auto. Qed.

Lemma interface_operations (d : domain) (op : string) :
  op ∈ operations d → Class.getattr (interface d) op = Some AbstractMethod.
Proof.
  destruct d; simpl; intros Hop;
    repeat (apply elem_of_cons in Hop as [->|Hop]; [vm_compute; reflexivity|]);
    by apply elem_of_nil in Hop.
Qed.

(** A subclass of a capability interface with no abstract method left
    defines every operation of the interface. *)
Lemma concrete_provides (d : domain) (c : pyclass) :
  Class.inherits c (interface d) →
  Class.abstractmethods c = ∅ →
  ∀ op, op ∈ operations d → Class.provides c op.
Proof.
  intros Hin Hconc op Hop. unfold Class.provides.
  destruct (getattr_inherits c (interface d) op Hin) as [m Hm].
  { rewrite (interface_operations d op Hop). eauto. }
  destruct m; [|exact Hm].
  exfalso.
  assert (op ∈ Class.abstractmethods c) as Hx.
  { apply abstractmethods_complete; [|exact Hm].
    right. eapply inherits_trans; [exact Hin|apply interface_inherits_ABC]. }
  rewrite Hconc in Hx. by apply not_elem_of_empty in Hx.
Qed.

(** ** The three outcomes of the lookup *)

Section Create.

Variables (r : request) (w : world).

Lemma create_module_missing :
  w_modules w !! module_name_of (req_domain r) (req_type_name r) = None →
  create r w =
  (Raise (unsupported_error (req_domain r) (req_type_name r)
            (Exc.ModuleNotFoundError
               ("No module named " +:+ PyStr.repr (module_name_of (req_domain r) (req_type_name r))))),
   w).
Proof.
  intros Hm. rewrite create_resolve.
  exact (resolve_module_missing _ _ _ _ w Hm).
Qed.

Lemma create_class_missing (m : pymodule) :
  w_modules w !! module_name_of (req_domain r) (req_type_name r) = Some m →
  mod_dict m !! class_name_of (req_domain r) (req_type_name r) = None →
  create r w =
  (Raise (unsupported_error (req_domain r) (req_type_name r)
            (Exc.AttributeError
               ("module " +:+ PyStr.repr (mod_name m) +:+
                " has no attribute " +:+ PyStr.repr (class_name_of (req_domain r) (req_type_name r))))),
   w).
Proof.
  intros Hm Hc. rewrite create_resolve.
  exact (resolve_class_missing _ _ _ _ w m Hm Hc).
Qed.

Lemma create_found (m : pymodule) (o : pyobj) :
  w_modules w !! module_name_of (req_domain r) (req_type_name r) = Some m →
  mod_dict m !! class_name_of (req_domain r) (req_type_name r) = Some o →
  create r w =
  try_except (call o (observed_args r)) lookup_errors
    (λ e, raise_from (Exc.ValueError (unsupported_message (req_domain r) (req_type_name r))) e) w.
Proof.
  intros Hm Hc. rewrite create_resolve.
  exact (resolve_found _ _ _ _ w m o Hm Hc).
Qed.

End Create.

(** The message names its domain and its type name unambiguously. *)
Lemma unsupported_message_inj (d d' : domain) (t t' : string) :
  unsupported_message d' t' = unsupported_message d t → d' = d ∧ t' = t.
Proof.
  unfold unsupported_message.
  destruct d, d'; intros H; cbv in H; try discriminate H;
    injection H as H; subst; split; reflexivity.
Qed.

(** ** The registry *)

Lemma registry_Some (w : world) (d : domain) (t : string) (o : pyobj) :
  registry w d t = Some o ↔
  ∃ m, w_modules w !! module_name_of d t = Some m ∧
       mod_dict m !! class_name_of d t = Some o.
Proof.
  unfold registry. split.
  - intros H. destruct (w_modules w !! module_name_of d t) as [m|]; [|done].
    exists m. auto.
  - intros (m & -> & Hc). exact Hc.
Qed.

Lemma registry_None (w : world) (d : domain) (t : string) :
  registry w d t = None ↔
  w_modules w !! module_name_of d t = None ∨
  ∃ m, w_modules w !! module_name_of d t = Some m ∧
       mod_dict m !! class_name_of d t = None.
Proof.
  unfold registry. split.
  - intros H. destruct (w_modules w !! module_name_of d t) as [m|]; [|auto].
    right. exists m. auto.
  - intros [->|(m & -> & Hc)]; [reflexivity|exact Hc].
Qed.

(** What a factory does once its lookup has found [o]. *)
Lemma create_registered (r : request) (w : world) (o : pyobj) :
  registry w (req_domain r) (req_type_name r) = Some o →
  create r w =
  try_except (call o (observed_args r)) lookup_errors
    (λ e, raise_from
            (Exc.ValueError
               (unsupported_message (req_domain r) (req_type_name r))) e) w.
Proof.
  intros (m & Hm & Hc)%registry_Some. exact (create_found r w m o Hm Hc).
Qed.

(** ** The claims *)

(** C1.  In every domain, when nothing can be located under the derived
    identity, be it that the derived module does not exist or that the module
    has no attribute of the derived class name, the factory raises one and the
    same error: a [ValueError] whose message is the unsupported-type message,
    and that message determines the domain and the type name of the call. *)
Theorem C1_unsupported_type_error (r : request) (w : world) :
  w_modules w !! module_name_of (req_domain r) (req_type_name r) = None ∨
  (∃ m, w_modules w !! module_name_of (req_domain r) (req_type_name r) = Some m
        ∧ mod_dict m !! class_name_of (req_domain r) (req_type_name r) = None) →
  (∃ cause,
     create r w =
     (Raise (PyExc ("ValueError" :: Exc.Exception_mro)
               (unsupported_message (req_domain r) (req_type_name r))
               (Some cause)), w)) ∧
  (∀ d' t',
     unsupported_message d' t' =
     unsupported_message (req_domain r) (req_type_name r) →
     d' = req_domain r ∧ t' = req_type_name r).
Proof.
  intros Hmiss. split; [|intros d' t'; apply unsupported_message_inj].
  destruct Hmiss as [Hm|(m & Hm & Hc)].
  - eexists. by apply create_module_missing.
  - eexists. by eapply create_class_missing.
Qed.

Lemma C1_unsupported_type_error_witness :
  (∃ cause,
     create (ReqCache "bogus" "x") Samples.redis_world =
     (Raise (PyExc ("ValueError" :: Exc.Exception_mro)
               "Unsupported cache type: bogus" (Some cause)),
      Samples.redis_world)) ∧
  (∀ d' t',
     unsupported_message d' t' = "Unsupported cache type: bogus" →
     d' = cache ∧ t' = "bogus").
Proof.
  apply (C1_unsupported_type_error (ReqCache "bogus" "x") Samples.redis_world).
  left. vm_compute. reflexivity.
Defined.

(** C2, as it is worded, fails in the microservice domain: the factory
    derives [implementations.fastapi_service] and [FastapiService], where the
    rule with the domain name gives [implementations.fastapi_microservice]
    and [FastapiMicroservice]; an implementation filed under the latter names
    is not found, one filed under the former is. *)
Lemma C2_microservice_counterexample :
  core_microservice.module_name "fastapi" = "implementations.fastapi_service" ∧
  spec_module_name microservice "fastapi" =
    "implementations.fastapi_microservice" ∧
  module_name_of microservice "fastapi" ≠
    spec_module_name microservice "fastapi" ∧
  core_microservice.class_name "fastapi" = "FastapiService" ∧
  spec_class_name microservice "fastapi" = "FastapiMicroservice" ∧
  class_name_of microservice "fastapi" ≠
    spec_class_name microservice "fastapi" ∧
  (core_microservice.create_microservice "fastapi" Samples.misfiled_world).1 =
    Raise (unsupported_error microservice "fastapi"
             (Exc.ModuleNotFoundError
                "No module named 'implementations.fastapi_service'")) ∧
  (core_microservice.create_microservice "fastapi" Samples.fastapi_world).1 =
    Return (VRef 0).
Proof.
  split; [reflexivity|]. split; [reflexivity|].
  split; [vm_compute; discriminate|].
  split; [reflexivity|]. split; [reflexivity|].
  split; [vm_compute; discriminate|].
  split; vm_compute; reflexivity.
Qed.

(** C2, amended.  In every domain the factory derives the module
    [implementations.<type_name>_<word>] and the class made of the capitalized
    type name followed by the capitalized word, where the word is the name of
    the domain except for microservice, whose word is [service]; so [redis]
    in the cache domain gives [implementations.redis_cache] and
    [RedisCache]. *)
Theorem C2_derived_identifier (d : domain) (type_name : string) :
  module_name_of d type_name =
    "implementations." +:+ type_name +:+ "_" +:+ factory_word d ∧
  class_name_of d type_name =
    PyStr.capitalize type_name +:+ PyStr.capitalize (factory_word d) ∧
  factory_word d =
    (if decide (d = microservice) then "service" else domain_name d) ∧
  module_name_of cache "redis" = "implementations.redis_cache" ∧
  class_name_of cache "redis" = "RedisCache".
Proof. destruct d; repeat split; reflexivity. Qed.

(** C3, as it is worded, fails: a located class whose constructor raises a
    [RuntimeError] lets that very exception escape. *)
Lemma C3_constructor_error_counterexample :
  registry Samples.refused_world cache "redis" = Some (OClass Samples.RefusedCache) ∧
  cls_init Samples.RefusedCache [VStr "redis://cache:6379"] =
    Raise (Exc.RuntimeError "connection refused") ∧
  (create (ReqCache "redis" "redis://cache:6379") Samples.refused_world).1 =
    Raise (Exc.RuntimeError "connection refused") ∧
  ¬ (∃ cause,
       (create (ReqCache "redis" "redis://cache:6379") Samples.refused_world).1 =
       Raise (unsupported_error cache "redis" cause)).
Proof.
  repeat split; try (vm_compute; reflexivity).
  intros [cause H]. vm_compute in H. discriminate H.
Qed.

(** C3, amended.  In every domain, when the implementation is located and
    calling it raises an exception that is an [ImportError] or an
    [AttributeError] (an instance of either class or of a subclass), the
    factory raises the normalized unsupported-type error, chained to that
    exception, and the constructor's exception does not escape. *)
Theorem C3_lookup_class_constructor_error
    (r : request) (w w' : world) (o : pyobj) (e : pyexc) :
  registry w (req_domain r) (req_type_name r) = Some o →
  call o (observed_args r) w = (Raise e, w') →
  Exc.isinstance e "ImportError" || Exc.isinstance e "AttributeError" = true →
  create r w =
  (Raise (unsupported_error (req_domain r) (req_type_name r) e), w').
Proof.
  intros Hreg Hcall He. rewrite (create_registered r w o Hreg).
  unfold try_except. rewrite Hcall.
  unfold Exc.caught_by, lookup_errors. simpl existsb.
  rewrite orb_false_r, He. reflexivity.
Qed.

Lemma C3_lookup_class_constructor_error_witness :
  create (ReqCache "redis" "redis://cache:6379") Samples.sloppy_world =
  (Raise (unsupported_error cache "redis"
            (Exc.AttributeError "'NoneType' object has no attribute 'connect'")),
   Samples.sloppy_world).
Proof.
  apply (C3_lookup_class_constructor_error
           (ReqCache "redis" "redis://cache:6379") Samples.sloppy_world
           Samples.sloppy_world (OClass Samples.SloppyCache)).
  - vm_compute. reflexivity.
  - vm_compute. reflexivity.
  - vm_compute. reflexivity.
Defined.

(** C4, as it is worded, fails: a constructor that raises an
    [AttributeError] is caught by the factory, and the caller sees the
    unsupported-type [ValueError] instead. *)
Lemma C4_constructor_error_counterexample :
  registry Samples.sloppy_world cache "redis" = Some (OClass Samples.SloppyCache) ∧
  cls_init Samples.SloppyCache [VStr "redis://cache:6379"] =
    Raise (Exc.AttributeError "'NoneType' object has no attribute 'connect'") ∧
  (create (ReqCache "redis" "redis://cache:6379") Samples.sloppy_world).1 =
    Raise (unsupported_error cache "redis"
             (Exc.AttributeError "'NoneType' object has no attribute 'connect'")) ∧
  (create (ReqCache "redis" "redis://cache:6379") Samples.sloppy_world).1 ≠
    Raise (Exc.AttributeError "'NoneType' object has no attribute 'connect'").
Proof.
  repeat split; try (vm_compute; reflexivity).
  vm_compute. discriminate.
Qed.

(** C4, amended.  In every domain, an exception raised by the located
    implementation's constructor that is neither an [ImportError] nor an
    [AttributeError] (nor an instance of a subclass of either) is not caught
    by the factory: it reaches the caller unmodified. *)
Theorem C4_other_constructor_error_propagates
    (r : request) (w w' : world) (o : pyobj) (e : pyexc) :
  registry w (req_domain r) (req_type_name r) = Some o →
  call o (observed_args r) w = (Raise e, w') →
  Exc.isinstance e "ImportError" = false →
  Exc.isinstance e "AttributeError" = false →
  create r w = (Raise e, w').
Proof.
  intros Hreg Hcall Hi Ha. rewrite (create_registered r w o Hreg).
  unfold try_except. rewrite Hcall.
  unfold Exc.caught_by, lookup_errors. simpl existsb.
  rewrite Hi, Ha. reflexivity.
Qed.

Lemma C4_other_constructor_error_propagates_witness :
  create (ReqCache "redis" "redis://cache:6379") Samples.refused_world =
  (Raise (Exc.RuntimeError "connection refused"), Samples.refused_world).
Proof.
  apply (C4_other_constructor_error_propagates
           (ReqCache "redis" "redis://cache:6379") Samples.refused_world
           Samples.refused_world (OClass Samples.RefusedCache)).
  - vm_compute. reflexivity.
  - vm_compute. reflexivity.
  - vm_compute. reflexivity.
  - vm_compute. reflexivity.
Defined.

(** What a successful call of a located class leaves behind, and when a call
    of a located class succeeds. *)
Lemma create_class_returns (r : request) (w w' : world) (c : pyclass)
    (v : pyval) :
  registry w (req_domain r) (req_type_name r) = Some (OClass c) →
  create r w = (Return v, w') →
  Class.abstractmethods c = ∅ ∧
  ∃ attrs,
    cls_init c (observed_args r) = Return attrs ∧
    v = VRef (List.length (w_heap w)) ∧
    w' = World (w_modules w) (w_heap w ++ [PyInst c attrs]).
Proof.
  intros Hreg. rewrite (create_registered r w _ Hreg).
  unfold try_except, call, instantiate.
  case_decide as Habs.
  - destruct (cls_init c (observed_args r)) as [attrs|e] eqn:Hinit.
    + intros [= <- <-]. eauto.
    + destruct (Exc.caught_by lookup_errors e); discriminate.
  - simpl. discriminate.
Qed.

Lemma create_class_ok (r : request) (w : world) (c : pyclass)
    (attrs : list (string * pyval)) :
  registry w (req_domain r) (req_type_name r) = Some (OClass c) →
  Class.abstractmethods c = ∅ →
  cls_init c (observed_args r) = Return attrs →
  create r w =
  (Return (VRef (List.length (w_heap w))),
   World (w_modules w) (w_heap w ++ [PyInst c attrs])).
Proof.
  intros Hreg Habs Hinit. rewrite (create_registered r w _ Hreg).
  unfold try_except, call, instantiate.
  rewrite decide_True by exact Habs. rewrite Hinit. reflexivity.
Qed.

(** An instance a factory returns from a subclass of its interface provides
    the interface, whatever the class looks like: a class with an abstract
    method left is refused at instantiation. *)
Lemma returned_instance_provides (r : request) (w w' : world) (c : pyclass)
    (v : pyval) :
  registry w (req_domain r) (req_type_name r) = Some (OClass c) →
  Class.inherits c (interface (req_domain r)) →
  create r w = (Return v, w') →
  Forall (Class.provides c) (operations (req_domain r)).
Proof.
  intros Hreg Hin Hret.
  destruct (create_class_returns r w w' c v Hreg Hret) as [Habs _].
  apply Forall_forall. intros op Hop.
  by apply (concrete_provides (req_domain r)).
Qed.

(** C5.  In every domain, when an implementation of the domain's interface is
    registered under the pair (a subclass of the abstract base class of the
    domain that leaves no method abstract, and whose constructor accepts the
    forwarded arguments), the factory returns a new instance of that class,
    and the class provides every operation of the interface: publish,
    subscribe, start and stop for a broker; add_service and add_route for a
    gateway; setup for a logger; start for security; create_app for a
    microservice; get_session for a database; get_client for a cache. *)
Theorem C5_registered_instance_satisfies_interface
    (r : request) (w : world) (c : pyclass) (attrs : list (string * pyval)) :
  registry w (req_domain r) (req_type_name r) = Some (OClass c) →
  Class.inherits c (interface (req_domain r)) →
  Class.abstractmethods c = ∅ →
  cls_init c (observed_args r) = Return attrs →
  ∃ addr w',
    create r w = (Return (VRef addr), w') ∧
    w_heap w' !! addr = Some (PyInst c attrs) ∧
    Forall (Class.provides c) (operations (req_domain r)).
Proof.
  intros Hreg Hin Habs Hinit.
  exists (List.length (w_heap w)), (World (w_modules w) (w_heap w ++ [PyInst c attrs])).
  split; [by apply create_class_ok|]. split.
  - simpl. rewrite lookup_app_r by reflexivity.
    by rewrite Nat.sub_diag.
  - apply Forall_forall. intros op Hop.
    by apply (concrete_provides (req_domain r)).
Qed.

Lemma C5_registered_instance_satisfies_interface_witness :
  ∃ addr w',
    create (ReqCache "redis" "redis://cache:6379") Samples.redis_world =
      (Return (VRef addr), w') ∧
    w_heap w' !! addr =
      Some (PyInst Samples.RedisCache [("url", VStr "redis://cache:6379")]) ∧
    Forall (Class.provides Samples.RedisCache) ["get_client"].
Proof.
  apply (C5_registered_instance_satisfies_interface
           (ReqCache "redis" "redis://cache:6379") Samples.redis_world
           Samples.RedisCache [("url", VStr "redis://cache:6379")]).
  - vm_compute. reflexivity.
  - simpl. left. reflexivity.
  - vm_compute. reflexivity.
  - reflexivity.
Defined.

(** C6.  In every domain, two calls of the factory with the same type name
    and the same arguments, one after the other, on a registered class that
    can be instantiated and whose constructor accepts the arguments, both
    return, and they return two distinct objects: each one is allocated by
    its own call at an address that was free before that call, and the
    second call leaves the first object as it was.  No instance is kept
    from one call to the next. *)
Theorem C6_fresh_instance_per_call
    (r : request) (w : world) (c : pyclass) (attrs : list (string * pyval)) :
  registry w (req_domain r) (req_type_name r) = Some (OClass c) →
  Class.abstractmethods c = ∅ →
  cls_init c (observed_args r) = Return attrs →
  ∃ a1 a2 w1 w2,
    create r w = (Return (VRef a1), w1) ∧
    create r w1 = (Return (VRef a2), w2) ∧
    a1 ≠ a2 ∧
    w_heap w !! a1 = None ∧ w_heap w1 !! a2 = None ∧
    w_heap w1 !! a1 = Some (PyInst c attrs) ∧
    w_heap w2 !! a1 = Some (PyInst c attrs) ∧
    w_heap w2 !! a2 = Some (PyInst c attrs).
Proof.
  intros Hreg Habs Hinit.
  pose (w1 := World (w_modules w) (w_heap w ++ [PyInst c attrs])).
  pose (w2 := World (w_modules w1) (w_heap w1 ++ [PyInst c attrs])).
  assert (registry w1 (req_domain r) (req_type_name r) = Some (OClass c))
    as Hreg1 by exact Hreg.
  exists (List.length (w_heap w)), (List.length (w_heap w1)), w1, w2.
  split; [exact (create_class_ok r w c attrs Hreg Habs Hinit)|].
  split; [exact (create_class_ok r w1 c attrs Hreg1 Habs Hinit)|].
  subst w2 w1. simpl. rewrite !length_app. simpl.
  repeat split.
  - lia.
  - apply lookup_ge_None. lia.
  - apply lookup_ge_None. rewrite length_app. simpl. lia.
  - rewrite lookup_app_r by reflexivity. by rewrite Nat.sub_diag.
  - rewrite lookup_app_l by (rewrite length_app; simpl; lia).
    rewrite lookup_app_r by reflexivity. by rewrite Nat.sub_diag.
  - rewrite lookup_app_r by (rewrite length_app; simpl; lia).
    rewrite length_app. simpl.
    by replace (_ - _) with 0 by lia.
Qed.

Lemma C6_fresh_instance_per_call_witness :
  ∃ a1 a2 w1 w2,
    create (ReqCache "redis" "redis://cache:6379") Samples.redis_world =
      (Return (VRef a1), w1) ∧
    create (ReqCache "redis" "redis://cache:6379") w1 =
      (Return (VRef a2), w2) ∧
    a1 ≠ a2 ∧
    w_heap Samples.redis_world !! a1 = None ∧ w_heap w1 !! a2 = None ∧
    w_heap w1 !! a1 =
      Some (PyInst Samples.RedisCache [("url", VStr "redis://cache:6379")]) ∧
    w_heap w2 !! a1 =
      Some (PyInst Samples.RedisCache [("url", VStr "redis://cache:6379")]) ∧
    w_heap w2 !! a2 =
      Some (PyInst Samples.RedisCache [("url", VStr "redis://cache:6379")]).
Proof.
  apply (C6_fresh_instance_per_call
           (ReqCache "redis" "redis://cache:6379") Samples.redis_world
           Samples.RedisCache [("url", VStr "redis://cache:6379")]).
  - vm_compute. reflexivity.
  - vm_compute. reflexivity.
  - reflexivity.
Defined.

(** C7.  Each factory calls what it located with exactly the arguments
    observed for its domain, in order, and nothing else: the broker URL; the
    gateway admin URL; the logger host and port; the security port; nothing
    for a microservice; the database URL; the cache URL.  The located object
    is arbitrary here, so the equations fix the argument list it receives. *)
Theorem C7_forwarded_arguments (w : world) (o : pyobj) (type_name : string) :
  (∀ broker_url,
     registry w broker type_name = Some o →
     core_message_broker.create_message_broker type_name broker_url w =
     guarded broker type_name (call o [VStr broker_url]) w) ∧
  (∀ admin_url,
     registry w gateway type_name = Some o →
     core_api_gateway.create_api_gateway type_name admin_url w =
     guarded gateway type_name (call o [VStr admin_url]) w) ∧
  (∀ host port,
     registry w logger type_name = Some o →
     core_logging.create_logger type_name host port w =
     guarded logger type_name (call o [VStr host; VInt port]) w) ∧
  (∀ port,
     registry w security type_name = Some o →
     core_security.create_security type_name port w =
     guarded security type_name (call o [VInt port]) w) ∧
  (registry w microservice type_name = Some o →
   core_microservice.create_microservice type_name w =
   guarded microservice type_name (call o []) w) ∧
  (∀ db_url,
     registry w database type_name = Some o →
     core_database.create_database type_name db_url w =
     guarded database type_name (call o [VStr db_url]) w) ∧
  (∀ cache_url,
     registry w cache type_name = Some o →
     core_cache.create_cache type_name cache_url w =
     guarded cache type_name (call o [VStr cache_url]) w).
Proof.
  repeat split.
  - intros url H. exact (create_registered (ReqBroker type_name url) w o H).
  - intros url H. exact (create_registered (ReqGateway type_name url) w o H).
  - intros host port H.
    exact (create_registered (ReqLogger type_name host port) w o H).
  - intros port H.
    exact (create_registered (ReqSecurity type_name port) w o H).
  - intros H. exact (create_registered (ReqMicroservice type_name) w o H).
  - intros url H. exact (create_registered (ReqDatabase type_name url) w o H).
  - intros url H. exact (create_registered (ReqCache type_name url) w o H).
Qed.

Lemma C7_forwarded_arguments_witness :
  core_message_broker.create_message_broker "demo" "amqp://mq" Samples.demo_world
    = guarded broker "demo" (call Samples.record [VStr "amqp://mq"])
        Samples.demo_world ∧
  core_api_gateway.create_api_gateway "demo" "http://kong:8001" Samples.demo_world
    = guarded gateway "demo" (call Samples.record [VStr "http://kong:8001"])
        Samples.demo_world ∧
  core_logging.create_logger "demo" "loghost" 514 Samples.demo_world
    = guarded logger "demo" (call Samples.record [VStr "loghost"; VInt 514])
        Samples.demo_world ∧
  core_security.create_security "demo" 8443 Samples.demo_world
    = guarded security "demo" (call Samples.record [VInt 8443])
        Samples.demo_world ∧
  core_microservice.create_microservice "demo" Samples.demo_world
    = guarded microservice "demo" (call Samples.record []) Samples.demo_world ∧
  core_database.create_database "demo" "postgres://db" Samples.demo_world
    = guarded database "demo" (call Samples.record [VStr "postgres://db"])
        Samples.demo_world ∧
  core_cache.create_cache "demo" "redis://cache:6379" Samples.demo_world
    = guarded cache "demo" (call Samples.record [VStr "redis://cache:6379"])
        Samples.demo_world.
Proof.
  destruct (C7_forwarded_arguments Samples.demo_world Samples.record "demo")
    as (Hb & Hg & Hl & Hs & Hm & Hd & Hc).
  split; [apply Hb; vm_compute; reflexivity|].
  split; [apply Hg; vm_compute; reflexivity|].
  split; [apply Hl; vm_compute; reflexivity|].
  split; [apply Hs; vm_compute; reflexivity|].
  split; [apply Hm; vm_compute; reflexivity|].
  split; [apply Hd; vm_compute; reflexivity|].
  apply Hc; vm_compute; reflexivity.
Defined.

(** What the recording callable saw in the logger and microservice domains. *)
Example demo_logger_arguments :
  core_logging.create_logger "demo" "loghost" 514 Samples.demo_world =
  (Return (VRef 0),
   World (w_modules Samples.demo_world)
     [PyInst Samples.Recorder [("arg", VStr "loghost"); ("arg", VInt 514)]]).
Proof. vm_compute. reflexivity. Qed.

Example demo_microservice_arguments :
  core_microservice.create_microservice "demo" Samples.demo_world =
  (Return (VRef 0),
   World (w_modules Samples.demo_world) [PyInst Samples.Recorder []]).
Proof. vm_compute. reflexivity. Qed.

(** C8.  In every domain a factory call, whether it returns or raises,
    leaves the importable modules as they were, and with them the
    implementation registered under every domain and type name. *)
Theorem C8_registry_unchanged (r : request) (w : world) :
  w_modules (create r w).2 = w_modules w ∧
  ∀ d type_name, registry (create r w).2 d type_name = registry w d type_name.
Proof.
  assert (w_modules (create r w).2 = w_modules w) as Hmods.
  { rewrite create_resolve. apply resolve_modules. }
  split; [exact Hmods|].
  intros d type_name. unfold registry. by rewrite Hmods.
Qed.

(** C9.  In every domain, the error raised when the lookup fails carries as
    its cause the very exception the failing step raised: the
    [ModuleNotFoundError] of the import when the module is missing, the
    [AttributeError] of the attribute lookup when the class is missing; so the
    cause tells the two failures apart. *)
Theorem C9_lookup_error_chains_cause (r : request) (w : world) :
  (w_modules w !! module_name_of (req_domain r) (req_type_name r) = None →
   ∃ x e,
     (create r w).1 = Raise x ∧
     (importlib.import_module
        (module_name_of (req_domain r) (req_type_name r)) w).1 = Raise e ∧
     exc_cause x = Some e ∧
     diagnose x = Some MissingModule) ∧
  (∀ m,
     w_modules w !! module_name_of (req_domain r) (req_type_name r) = Some m →
     mod_dict m !! class_name_of (req_domain r) (req_type_name r) = None →
     ∃ x e,
       (create r w).1 = Raise x ∧
       (getattr m (class_name_of (req_domain r) (req_type_name r)) w).1
         = Raise e ∧
       exc_cause x = Some e ∧
       diagnose x = Some MissingClass).
Proof.
  split.
  - intros Hm. rewrite (create_module_missing r w Hm).
    unfold importlib.import_module. rewrite Hm.
    do 2 eexists. repeat split.
  - intros m Hm Hc. rewrite (create_class_missing r w m Hm Hc).
    unfold getattr. rewrite Hc.
    do 2 eexists. repeat split.
Qed.

Lemma C9_lookup_error_chains_cause_witness :
  (∃ x e,
     (create (ReqCache "redis" "redis://cache:6379") Samples.bare_world).1
       = Raise x ∧
     (importlib.import_module "implementations.redis_cache"
        Samples.bare_world).1 = Raise e ∧
     exc_cause x = Some e ∧
     diagnose x = Some MissingModule) ∧
  (∃ x e,
     (create (ReqCache "redis" "redis://cache:6379") Samples.hollow_world).1
       = Raise x ∧
     (getattr (PyModule "implementations.redis_cache"
                 {["Redis" := OClass Samples.RedisCache]})
        "RedisCache" Samples.hollow_world).1 = Raise e ∧
     exc_cause x = Some e ∧
     diagnose x = Some MissingClass).
Proof.
  split.
  - apply (proj1 (C9_lookup_error_chains_cause
                    (ReqCache "redis" "redis://cache:6379")
                    Samples.bare_world)).
    vm_compute. reflexivity.
  - apply (proj2 (C9_lookup_error_chains_cause
                    (ReqCache "redis" "redis://cache:6379")
                    Samples.hollow_world)
             (PyModule "implementations.redis_cache"
                {["Redis" := OClass Samples.RedisCache]})).
    + vm_compute. reflexivity.
    + vm_compute. reflexivity.
Defined.

(** ** Names *)

Lemma string_length_app (s1 s2 : string) :
  String.length (s1 +:+ s2) = String.length s1 + String.length s2.
Proof. induction s1 as [|a s1 IH]; simpl; [reflexivity|]. by rewrite IH. Qed.

Lemma string_app_inj_r (s1 s2 suffix : string) :
  s1 +:+ suffix = s2 +:+ suffix → s1 = s2.
Proof.
  revert s2. induction s1 as [|a s1 IH]; intros [|b s2] H.
  - reflexivity.
  - apply (f_equal String.length) in H.
    change (String.length suffix = S (String.length (s2 +:+ suffix))) in H.
    rewrite string_length_app in H. lia.
  - apply (f_equal String.length) in H.
    change (S (String.length (s1 +:+ suffix)) = String.length suffix) in H.
    rewrite string_length_app in H. lia.
  - injection H as -> H. f_equal. by apply IH.
Qed.

Lemma module_name_of_inj (d : domain) (t1 t2 : string) :
  module_name_of d t1 = module_name_of d t2 → t1 = t2.
Proof.
  intros H.
  assert (t1 +:+ ("_" +:+ factory_word d) = t2 +:+ ("_" +:+ factory_word d))
    as Hs.
  { destruct d; cbv [module_name_of core_message_broker.module_name
      core_api_gateway.module_name core_logging.module_name
      core_security.module_name core_microservice.module_name
      core_database.module_name core_cache.module_name] in H;
      by apply (inj (String.append "implementations.")) in H. }
  by apply string_app_inj_r in Hs.
Qed.

Lemma module_name_of_shape (d : domain) (t : string) :
  module_name_of d t = "implementations." +:+ t +:+ "_" +:+ factory_word d.
Proof. by destruct d. Qed.

Lemma class_name_of_shape (d : domain) (t : string) :
  class_name_of d t = PyStr.capitalize t +:+ PyStr.capitalize (factory_word d).
Proof. by destruct d. Qed.

(** ** Strings of ASCII characters *)

Lemma isascii_cons (c : ascii) (s : string) :
  PyStr.isascii (String c s) = true ↔
  (N_of_ascii c <? 128)%N = true ∧ PyStr.isascii s = true.
Proof. simpl. apply andb_true_iff. Qed.

Lemma utf8_decode_ascii_cons (c : ascii) (s : string) :
  (N_of_ascii c <? 128)%N = true →
  PyStr.utf8_decode (String c s) = N_of_ascii c :: PyStr.utf8_decode s.
Proof. intros H. unfold PyStr.utf8_decode. simpl. by rewrite H. Qed.

Lemma utf8_encode_ascii_cons (n : N) (l : list N) :
  (n <? 128)%N = true →
  PyStr.utf8_encode (n :: l) = String (ascii_of_N n) (PyStr.utf8_encode l).
Proof.
  intros H. unfold PyStr.utf8_encode. simpl.
  unfold PyStr.utf8_encode1 at 1. by rewrite H.
Qed.

Lemma chr_upper_ascii (c : ascii) :
  (N_of_ascii c <? 128)%N = true →
  (N_of_ascii (PyStr.chr_upper c) <? 128)%N = true.
Proof.
  destruct c as [[] [] [] [] [] [] [] []]; intros H;
    first [discriminate H | reflexivity].
Qed.

Lemma chr_lower_ascii (c : ascii) :
  (N_of_ascii c <? 128)%N = true →
  (N_of_ascii (PyStr.chr_lower c) <? 128)%N = true.
Proof.
  destruct c as [[] [] [] [] [] [] [] []]; intros H;
    first [discriminate H | reflexivity].
Qed.

(** On an ASCII character the tables give its ASCII upper and lower case. *)
Lemma to_title_full_ascii (c : ascii) :
  (N_of_ascii c <? 128)%N = true →
  PyStr.to_title_full (N_of_ascii c) = [N_of_ascii (PyStr.chr_upper c)].
Proof.
  destruct c as [[] [] [] [] [] [] [] []]; intros H;
    first [discriminate H | vm_compute; reflexivity].
Qed.

Lemma lower_ucs4_ascii (c : ascii) (before after : list N) :
  (N_of_ascii c <? 128)%N = true →
  PyStr.lower_ucs4 before (N_of_ascii c) after =
  [N_of_ascii (PyStr.chr_lower c)].
Proof.
  unfold PyStr.lower_ucs4.
  destruct c as [[] [] [] [] [] [] [] []]; intros H;
    first [discriminate H | vm_compute; reflexivity].
Qed.

Lemma ascii_lower_isascii (s : string) :
  PyStr.isascii s = true → PyStr.isascii (PyStr.ascii_lower s) = true.
Proof.
  induction s as [|c s IH]; [done|].
  intros [Hc Hs]%isascii_cons. apply isascii_cons.
  split; [by apply chr_lower_ascii|by apply IH].
Qed.

Lemma do_lower_ascii (s : string) (before : list N) :
  PyStr.isascii s = true →
  PyStr.utf8_encode (PyStr.do_lower before (PyStr.utf8_decode s)) =
  PyStr.ascii_lower s.
Proof.
  revert before. induction s as [|c s IH]; intros before; [done|].
  intros [Hc Hs]%isascii_cons.
  rewrite (utf8_decode_ascii_cons c s Hc). simpl PyStr.do_lower.
  rewrite (lower_ucs4_ascii c before _ Hc). simpl app.
  rewrite utf8_encode_ascii_cons by (by apply chr_lower_ascii).
  rewrite ascii_N_embedding. simpl. f_equal. by apply IH.
Qed.

(** On a string of ASCII characters, [str.lower] turns the upper-case
    letters into lower case and leaves the other characters alone. *)
Lemma lower_ascii (s : string) :
  PyStr.isascii s = true → PyStr.lower s = PyStr.ascii_lower s.
Proof. apply do_lower_ascii. Qed.

(** On a string of ASCII characters, [str.capitalize] puts the first
    character in upper case and the others in lower case. *)
Lemma capitalize_ascii (c : ascii) (rest : string) :
  PyStr.isascii (String c rest) = true →
  PyStr.capitalize (String c rest) =
  String (PyStr.chr_upper c) (PyStr.ascii_lower rest).
Proof.
  intros [Hc Hs]%isascii_cons. unfold PyStr.capitalize.
  rewrite (utf8_decode_ascii_cons c rest Hc). simpl PyStr.do_capitalize.
  rewrite (to_title_full_ascii c Hc). simpl app.
  rewrite utf8_encode_ascii_cons by (by apply chr_upper_ascii).
  rewrite ascii_N_embedding. f_equal. by apply do_lower_ascii.
Qed.

(** Beyond ASCII the case mappings are those of Unicode: accented letters
    change case, a character may be mapped to several, and the lower case of
    the capital sigma depends on its place in the word. *)
Example capitalize_beyond_ascii :
  PyStr.capitalize "éclair" = "Éclair" ∧
  PyStr.capitalize "aÉ" = "Aé" ∧
  PyStr.capitalize "ŉ" = "ʼN" ∧
  PyStr.capitalize "ß" = "Ss" ∧
  PyStr.lower "ΣΑΣ" = "σας".
Proof. vm_compute. repeat split. Qed.

Lemma capitalize_isascii (s : string) :
  PyStr.isascii s = true → PyStr.isascii (PyStr.capitalize s) = true.
Proof.
  destruct s as [|c rest]; [done|]. intros H.
  rewrite (capitalize_ascii c rest H).
  apply isascii_cons in H as [Hc Hs]. apply isascii_cons.
  split; [by apply chr_upper_ascii|by apply ascii_lower_isascii].
Qed.

(** C10, as it is worded, fails outside ASCII: [aΣ] and [aσ] differ only in
    the case of their second character (a lone capital sigma and the small
    sigma have the same lower case), yet the capital sigma, final in its
    word, is lowered to the final sigma, and the two class names differ. *)
Lemma C10_final_sigma_counterexample :
  "Σ" ≠ "σ" ∧
  PyStr.lower "Σ" = PyStr.lower "σ" ∧
  class_name_of cache "aΣ" = "AςCache" ∧
  class_name_of cache "aσ" = "AσCache" ∧
  class_name_of cache "aΣ" ≠ class_name_of cache "aσ".
Proof.
  split; [discriminate|]. split; [vm_compute; reflexivity|].
  split; [vm_compute; reflexivity|]. split; [vm_compute; reflexivity|].
  vm_compute. discriminate.
Qed.

(** C10, amended.  In every domain and for every type name made of ASCII
    characters, the class name starts with the type name capitalized: its
    first character in upper case, the others in lower case.  Hence two
    such type names that differ only in the case of characters after the
    first (such as [inmemory] and [inMemory]) derive the same class name and
    different module names, and the empty type name contributes an empty
    prefix. *)
Theorem C10_capitalized_prefix (d : domain) :
  (∀ c rest,
     PyStr.isascii (String c rest) = true →
     class_name_of d (String c rest) =
     String (PyStr.chr_upper c) (PyStr.lower rest) +:+
     PyStr.capitalize (factory_word d)) ∧
  (∀ c rest1 rest2,
     PyStr.isascii (String c rest1) = true →
     PyStr.isascii (String c rest2) = true →
     rest1 ≠ rest2 →
     PyStr.lower rest1 = PyStr.lower rest2 →
     class_name_of d (String c rest1) = class_name_of d (String c rest2) ∧
     module_name_of d (String c rest1) ≠ module_name_of d (String c rest2)) ∧
  class_name_of d "" = "" +:+ PyStr.capitalize (factory_word d) ∧
  class_name_of d "inmemory" = class_name_of d "inMemory" ∧
  module_name_of d "inmemory" ≠ module_name_of d "inMemory".
Proof.
  assert (∀ c rest,
            PyStr.isascii (String c rest) = true →
            class_name_of d (String c rest) =
            String (PyStr.chr_upper c) (PyStr.lower rest) +:+
            PyStr.capitalize (factory_word d)) as Hprefix.
  { intros c rest H. rewrite class_name_of_shape, (capitalize_ascii c rest H).
    apply isascii_cons in H as [_ Hrest]. by rewrite (lower_ascii rest Hrest). }
  split; [exact Hprefix|]. split.
  - intros c rest1 rest2 H1 H2 Hne Hlow. split.
    + by rewrite (Hprefix c rest1 H1), (Hprefix c rest2 H2), Hlow.
    + intros H%module_name_of_inj. congruence.
  - split; [by rewrite class_name_of_shape|]. split.
    + by rewrite (Hprefix "i"%char "nmemory"), (Hprefix "i"%char "nMemory").
    + intros H%module_name_of_inj. discriminate H.
Qed.

Lemma C10_capitalized_prefix_witness :
  class_name_of logger "gELF" = class_name_of logger "gelf" ∧
  module_name_of logger "gELF" ≠ module_name_of logger "gelf".
Proof.
  apply (proj1 (proj2 (C10_capitalized_prefix logger)) "g"%char "ELF" "elf").
  - reflexivity.
  - reflexivity.
  - discriminate.
  - vm_compute. reflexivity.
Defined.

(** ** Further properties of the interfaces *)

(** X1.  Each abstract base class declares exactly the operations of its
    domain as abstract methods, and calling it raises a [TypeError] whatever
    the arguments: an interface has no instances of its own. *)
Theorem X1_interface_is_abstract (d : domain) :
  Class.abstractmethods (interface d) = list_to_set (operations d) ∧
  ∀ args w,
    call (OClass (interface d)) args w =
    (Raise (Exc.TypeError
              ("Can't instantiate abstract class " +:+ cls_name (interface d))),
     w).
Proof.
  assert (Class.abstractmethods (interface d) = list_to_set (operations d))
    as Habs by (destruct d; vm_compute; reflexivity).
  split; [exact Habs|].
  intros args w. unfold call, instantiate.
  rewrite decide_False; [reflexivity|].
  rewrite Habs. intros Hempty.
  assert (∃ op, op ∈ operations d) as [op Hop]
    by (destruct d; eexists; apply list_elem_of_here).
  apply (elem_of_list_to_set (C := gset string)) in Hop.
  rewrite Hempty in Hop. by apply not_elem_of_empty in Hop.
Qed.

(** X2.  In every domain, a registered subclass of the interface that leaves
    one of the operations without a concrete definition is refused when the
    factory calls it: the caller gets the [TypeError] of the instantiation,
    not the unsupported-type error, and nothing is allocated. *)
Theorem X2_incomplete_implementation_rejected
    (r : request) (w : world) (c : pyclass) (op : string) :
  registry w (req_domain r) (req_type_name r) = Some (OClass c) →
  Class.inherits c (interface (req_domain r)) →
  op ∈ operations (req_domain r) →
  ¬ Class.provides c op →
  create r w =
  (Raise (Exc.TypeError ("Can't instantiate abstract class " +:+ cls_name c)),
   w).
Proof.
  intros Hreg Hin Hop Hnot.
  assert (op ∈ Class.abstractmethods c) as Hmem.
  { apply abstractmethods_complete.
    - right. eapply inherits_trans; [exact Hin|apply interface_inherits_ABC].
    - destruct (getattr_inherits c (interface (req_domain r)) op Hin)
        as [m Hm].
      { rewrite (interface_operations _ op Hop). eauto. }
      destruct m; [exact Hm|]. by destruct Hnot. }
  rewrite (create_registered r w _ Hreg).
  unfold try_except, call, instantiate.
  rewrite decide_False; [reflexivity|].
  intros Hempty. rewrite Hempty in Hmem. by apply not_elem_of_empty in Hmem.
Qed.

Lemma X2_incomplete_implementation_rejected_witness :
  create (ReqBroker "half" "amqp://mq") Fixtures.half_world =
  (Raise (Exc.TypeError "Can't instantiate abstract class HalfBroker"),
   Fixtures.half_world).
Proof.
  apply (X2_incomplete_implementation_rejected
           (ReqBroker "half" "amqp://mq") Fixtures.half_world
           Fixtures.HalfBroker "stop").
  - vm_compute. reflexivity.
  - simpl. left. reflexivity.
  - simpl. do 3 apply list_elem_of_further. apply list_elem_of_here.
  - vm_compute. discriminate.
Defined.

(** ** Further properties of the factories *)

(** X3.  No factory ever lets an [ImportError] or an [AttributeError] reach
    its caller, wherever it came from: whatever a factory raises is an
    instance of neither class. *)
Theorem X3_no_lookup_error_escapes
    (r : request) (w w' : world) (x : pyexc) :
  create r w = (Raise x, w') →
  Exc.isinstance x "ImportError" = false ∧
  Exc.isinstance x "AttributeError" = false.
Proof.
  destruct (registry w (req_domain r) (req_type_name r)) as [o|] eqn:Hreg.
  - rewrite (create_registered r w o Hreg). unfold try_except.
    destruct (call o (observed_args r) w) as [[v|e] w1]; [discriminate|].
    destruct (Exc.caught_by lookup_errors e) eqn:Hcaught.
    + intros [= <- <-]. split; reflexivity.
    + intros [= <- <-].
      unfold Exc.caught_by, lookup_errors in Hcaught. simpl existsb in Hcaught.
      rewrite orb_false_r in Hcaught.
      by apply orb_false_iff in Hcaught.
  - apply registry_None in Hreg as [Hm|(m & Hm & Hc)].
    + rewrite (create_module_missing r w Hm).
      intros [= <- <-]. split; reflexivity.
    + rewrite (create_class_missing r w m Hm Hc).
      intros [= <- <-]. split; reflexivity.
Qed.

Lemma X3_no_lookup_error_escapes_witness :
  Exc.isinstance
    (unsupported_error cache "redis"
       (Exc.ModuleNotFoundError "No module named 'redis'")) "ImportError"
    = false ∧
  Exc.isinstance
    (unsupported_error cache "redis"
       (Exc.ModuleNotFoundError "No module named 'redis'")) "AttributeError"
    = false.
Proof.
  apply (X3_no_lookup_error_escapes
           (ReqCache "redis" "redis://cache:6379") Fixtures.lazy_world
           Fixtures.lazy_world).
  vm_compute. reflexivity.
Defined.

(** X4.  A factory hands back whatever the located callable returns, as it
    is: the declared return type is not checked, so a callable that returns
    something other than an instance of the interface gets it through. *)
Theorem X4_result_is_not_checked
    (r : request) (w w' : world) (o : pyobj) (v : pyval) :
  registry w (req_domain r) (req_type_name r) = Some o →
  call o (observed_args r) w = (Return v, w') →
  create r w = (Return v, w').
Proof.
  intros Hreg Hcall. rewrite (create_registered r w o Hreg).
  unfold try_except. by rewrite Hcall.
Qed.

Lemma X4_result_is_not_checked_witness :
  create (ReqLogger "text" "loghost" 514) Fixtures.stringly_world =
  (Return (VStr "not a logger"), Fixtures.stringly_world).
Proof.
  apply (X4_result_is_not_checked
           (ReqLogger "text" "loghost" 514) Fixtures.stringly_world
           Fixtures.stringly_world
           (OFunction (λ _ h, (Return (VStr "not a logger"), h)))).
  - vm_compute. reflexivity.
  - reflexivity.
Defined.

(** X5.  A constructor failure that the factory wraps cannot be told from a
    lookup failure by the class of the cause: the raised error has the class
    and the message of the unsupported-type error, and its cause reads as a
    missing module when the constructor raised an [ImportError], as a
    missing class when it raised an [AttributeError], although the module
    and the class were both found. *)
Theorem X5_wrapped_constructor_error_reads_as_lookup_failure
    (r : request) (w w' : world) (o : pyobj) (e : pyexc) :
  registry w (req_domain r) (req_type_name r) = Some o →
  call o (observed_args r) w = (Raise e, w') →
  Exc.caught_by lookup_errors e = true →
  ∃ x,
    create r w = (Raise x, w') ∧
    exc_mro x = "ValueError" :: Exc.Exception_mro ∧
    exc_msg x = unsupported_message (req_domain r) (req_type_name r) ∧
    diagnose x =
      Some (if Exc.isinstance e "ImportError" then MissingModule
            else MissingClass).
Proof.
  intros Hreg Hcall Hcaught.
  exists (unsupported_error (req_domain r) (req_type_name r) e).
  split; [|split; [reflexivity|split; [reflexivity|]]].
  - rewrite (create_registered r w o Hreg).
    unfold try_except. by rewrite Hcall, Hcaught.
  - unfold diagnose. simpl.
    destruct (Exc.isinstance e "ImportError") eqn:Hi; [reflexivity|].
    unfold Exc.caught_by, lookup_errors in Hcaught. simpl existsb in Hcaught.
    rewrite Hi, orb_false_r in Hcaught. simpl in Hcaught.
    by rewrite Hcaught.
Qed.

Lemma X5_wrapped_constructor_error_reads_as_lookup_failure_witness :
  ∃ x,
    create (ReqCache "redis" "redis://cache:6379") Fixtures.lazy_world =
      (Raise x, Fixtures.lazy_world) ∧
    exc_mro x = "ValueError" :: Exc.Exception_mro ∧
    exc_msg x = "Unsupported cache type: redis" ∧
    diagnose x = Some MissingModule.
Proof.
  apply (X5_wrapped_constructor_error_reads_as_lookup_failure
           (ReqCache "redis" "redis://cache:6379") Fixtures.lazy_world
           Fixtures.lazy_world (OClass Fixtures.LazyCache)
           (Exc.ModuleNotFoundError "No module named 'redis'")).
  - vm_compute. reflexivity.
  - vm_compute. reflexivity.
  - vm_compute. reflexivity.
Defined.

(** ** Further properties of the derived names *)

Lemma string_app_eq_app (t1 t2 s1 s2 : string) :
  t1 +:+ s1 = t2 +:+ s2 →
  (∃ p, t1 = t2 +:+ p ∧ s2 = p +:+ s1) ∨
  (∃ p, t2 = t1 +:+ p ∧ s1 = p +:+ s2).
Proof.
  revert t2. induction t1 as [|a t1 IH]; intros t2 H.
  - right. exists t2. split; [reflexivity|exact H].
  - destruct t2 as [|b t2].
    + left. exists (String a t1). split; [reflexivity|]. symmetry. exact H.
    + injection H as -> H.
      destruct (IH t2 H) as [(p & -> & Hp)|(p & -> & Hp)].
      * left. exists p. split; [reflexivity|exact Hp].
      * right. exists p. split; [reflexivity|exact Hp].
Qed.

(** A literal is not another literal with something put in front. *)
Ltac no_proper_suffix H p :=
  destruct p as [|? p];
  [ change (String.append EmptyString ?s) with s in H; discriminate H
  | change (String.append (String ?a ?q) ?s) with (String a (String.append q s))
      in H;
    first [ discriminate H | injection H as _ H; no_proper_suffix H p ] ].

Lemma suffix_words_differ (w1 w2 t1 t2 : string) :
  w1 ∈ ["_broker"; "_gateway"; "_logger"; "_security"; "_service";
        "_database"; "_cache"; "Broker"; "Gateway"; "Logger"; "Security";
        "Service"; "Database"; "Cache"] →
  w2 ∈ ["_broker"; "_gateway"; "_logger"; "_security"; "_service";
        "_database"; "_cache"; "Broker"; "Gateway"; "Logger"; "Security";
        "Service"; "Database"; "Cache"] →
  t1 +:+ w1 = t2 +:+ w2 → w1 = w2.
Proof.
  intros H1 H2 H.
  repeat (apply elem_of_cons in H1 as [->|H1]);
    try (by apply elem_of_nil in H1);
    repeat (apply elem_of_cons in H2 as [->|H2]);
    try (by apply elem_of_nil in H2);
    try reflexivity;
    exfalso;
    apply string_app_eq_app in H as [(p & _ & Hp)|(p & _ & Hp)];
    no_proper_suffix Hp p.
Qed.

Lemma module_suffix_in_words (d : domain) :
  "_" +:+ factory_word d ∈
    ["_broker"; "_gateway"; "_logger"; "_security"; "_service";
     "_database"; "_cache"; "Broker"; "Gateway"; "Logger"; "Security";
     "Service"; "Database"; "Cache"].
Proof.
  destruct d; cbv [factory_word String.append];
    repeat (first [apply list_elem_of_here | apply list_elem_of_further]).
Qed.

Lemma class_suffix_in_words (d : domain) :
  PyStr.capitalize (factory_word d) ∈
    ["_broker"; "_gateway"; "_logger"; "_security"; "_service";
     "_database"; "_cache"; "Broker"; "Gateway"; "Logger"; "Security";
     "Service"; "Database"; "Cache"].
Proof.
  destruct d; vm_compute;
    repeat (first [apply list_elem_of_here | apply list_elem_of_further]).
Qed.

Lemma factory_word_inj (d1 d2 : domain) :
  factory_word d1 = factory_word d2 → d1 = d2.
Proof. destruct d1, d2; intros H; try discriminate H; reflexivity. Qed.

Lemma capitalized_word_inj (d1 d2 : domain) :
  PyStr.capitalize (factory_word d1) = PyStr.capitalize (factory_word d2) →
  d1 = d2.
Proof.
  destruct d1, d2; intros H; vm_compute in H; try discriminate H; reflexivity.
Qed.

Lemma module_name_of_inj_pair (d1 d2 : domain) (t1 t2 : string) :
  module_name_of d1 t1 = module_name_of d2 t2 → d1 = d2 ∧ t1 = t2.
Proof.
  rewrite !module_name_of_shape. intros H.
  apply (inj (String.append "implementations.")) in H.
  assert ("_" +:+ factory_word d1 = "_" +:+ factory_word d2) as Hw.
  { eapply suffix_words_differ; [apply module_suffix_in_words..|exact H]. }
  assert (d1 = d2) as ->.
  { apply factory_word_inj. by injection Hw. }
  split; [reflexivity|]. by apply string_app_inj_r in H.
Qed.

(** X6.  The derived module name determines the call: two calls, in the same
    domain or in two different ones, derive the same module name only if they
    are in the same domain and ask for the same type name. *)
Theorem X6_module_name_determines_request
    (d1 d2 : domain) (t1 t2 : string) :
  module_name_of d1 t1 = module_name_of d2 t2 → d1 = d2 ∧ t1 = t2.
Proof. apply module_name_of_inj_pair. Qed.

Lemma X6_module_name_determines_request_witness :
  gateway = gateway ∧ "kong" = "kong".
Proof.
  apply (X6_module_name_determines_request gateway gateway "kong" "kong").
  reflexivity.
Defined.

Lemma chr_upper_lower (c : ascii) :
  PyStr.chr_upper (PyStr.chr_lower c) = PyStr.chr_upper c.
Proof. destruct c as [[] [] [] [] [] [] [] []]; reflexivity. Qed.

Lemma chr_lower_upper (c : ascii) :
  PyStr.chr_lower (PyStr.chr_upper c) = PyStr.chr_lower c.
Proof. destruct c as [[] [] [] [] [] [] [] []]; reflexivity. Qed.

Lemma chr_upper_idem (c : ascii) :
  PyStr.chr_upper (PyStr.chr_upper c) = PyStr.chr_upper c.
Proof. destruct c as [[] [] [] [] [] [] [] []]; reflexivity. Qed.

Lemma chr_lower_idem (c : ascii) :
  PyStr.chr_lower (PyStr.chr_lower c) = PyStr.chr_lower c.
Proof. destruct c as [[] [] [] [] [] [] [] []]; reflexivity. Qed.

Lemma ascii_lower_idem (s : string) :
  PyStr.ascii_lower (PyStr.ascii_lower s) = PyStr.ascii_lower s.
Proof.
  induction s as [|c s IH]; simpl; [reflexivity|].
  by rewrite chr_lower_idem, IH.
Qed.

Lemma capitalize_idem (s : string) :
  PyStr.isascii s = true →
  PyStr.capitalize (PyStr.capitalize s) = PyStr.capitalize s.
Proof.
  destruct s as [|c rest]; [done|]. intros H.
  pose proof (capitalize_isascii _ H) as Hcap.
  rewrite (capitalize_ascii c rest H) in Hcap |- *.
  rewrite (capitalize_ascii _ _ Hcap).
  by rewrite chr_upper_idem, ascii_lower_idem.
Qed.

(** On ASCII strings, capitalizing forgets exactly the case of the letters. *)
Lemma capitalize_eq_iff (t1 t2 : string) :
  PyStr.isascii t1 = true → PyStr.isascii t2 = true →
  PyStr.capitalize t1 = PyStr.capitalize t2 ↔ PyStr.lower t1 = PyStr.lower t2.
Proof.
  intros H1 H2. rewrite (lower_ascii t1 H1), (lower_ascii t2 H2).
  destruct t1 as [|c1 r1], t2 as [|c2 r2].
  - done.
  - rewrite (capitalize_ascii c2 r2 H2). split; discriminate.
  - rewrite (capitalize_ascii c1 r1 H1). split; discriminate.
  - rewrite (capitalize_ascii c1 r1 H1), (capitalize_ascii c2 r2 H2). simpl.
    split; intros [= Hc Hr]; f_equal; try exact Hr.
    + by rewrite <- (chr_lower_upper c1), Hc, chr_lower_upper.
    + by rewrite <- (chr_upper_lower c1), Hc, chr_upper_lower.
Qed.

(** X7.  Two calls whose type names are made of ASCII characters derive the
    same class name exactly when they are in the same domain and their type
    names are equal up to the case of their letters: [redis], [Redis] and
    [REDIS] all lead to [RedisCache], while the module names they lead to
    are pairwise different. *)
Theorem X7_class_name_collisions (d1 d2 : domain) (t1 t2 : string) :
  PyStr.isascii t1 = true →
  PyStr.isascii t2 = true →
  class_name_of d1 t1 = class_name_of d2 t2 ↔
  d1 = d2 ∧ PyStr.lower t1 = PyStr.lower t2.
Proof.
  intros H1 H2. rewrite !class_name_of_shape. split.
  - intros H.
    assert (PyStr.capitalize (factory_word d1) =
            PyStr.capitalize (factory_word d2)) as Hw.
    { eapply suffix_words_differ; [apply class_suffix_in_words..|exact H]. }
    apply capitalized_word_inj in Hw as ->.
    split; [reflexivity|].
    apply (capitalize_eq_iff t1 t2 H1 H2). by apply string_app_inj_r in H.
  - intros [-> Hl]. apply (capitalize_eq_iff t1 t2 H1 H2) in Hl. by rewrite Hl.
Qed.

Lemma X7_class_name_collisions_witness :
  class_name_of cache "REDIS" = class_name_of cache "redis" ↔
  cache = cache ∧ PyStr.lower "REDIS" = PyStr.lower "redis".
Proof.
  apply (X7_class_name_collisions cache cache "REDIS" "redis").
  - reflexivity.
  - reflexivity.
Defined.

(** X8.  A class whose name, before the domain word, is not what
    [str.capitalize] would leave unchanged cannot be reached through a
    factory by any type name made of ASCII characters: no such type name
    leads [create_cache] to a class called [InMemoryCache]. *)
Theorem X8_unreachable_class_name (d : domain) (prefix t : string) :
  PyStr.isascii t = true →
  PyStr.capitalize prefix ≠ prefix →
  class_name_of d t ≠ prefix +:+ PyStr.capitalize (factory_word d).
Proof.
  intros Hascii Hnot H. rewrite class_name_of_shape in H.
  apply string_app_inj_r in H. subst prefix.
  by apply Hnot, capitalize_idem.
Qed.

Lemma X8_unreachable_class_name_witness :
  class_name_of cache "inMemory" ≠ "InMemoryCache".
Proof.
  apply (X8_unreachable_class_name cache "InMemory" "inMemory").
  - reflexivity.
  - vm_compute. discriminate.
Defined.

(** X9.  Making importable a module that has the derived module name of one
    domain and type name, with the derived class name bound in it, makes the
    factory of that domain find exactly that object for that type name, and
    changes nothing to what is found for any other domain or type name. *)
Theorem X9_plugin_is_found_and_only_there
    (w : world) (d d' : domain) (t t' : string) (o : pyobj) :
  registry
    (World (<[module_name_of d t :=
               PyModule (module_name_of d t) {[class_name_of d t := o]}]>
              (w_modules w)) (w_heap w)) d' t' =
  if decide (d' = d ∧ t' = t) then Some o else registry w d' t'.
Proof.
  unfold registry. simpl. case_decide as Hdt.
  - destruct Hdt as [-> ->]. rewrite lookup_insert_eq. simpl.
    apply lookup_singleton_eq.
  - rewrite lookup_insert_ne; [reflexivity|].
    intros Heq. apply module_name_of_inj_pair in Heq as [-> ->].
    by apply Hdt.
Qed.

(** X10.  Type names are matched as they are written.  Where the only
    importable module is the one derived for one domain and type name, every
    call for another domain or for another type name, be it one that derives
    the same class name, fails with the unsupported-type error for a missing
    module and leaves the world as it was. *)
Theorem X10_other_requests_are_unsupported
    (w : world) (d : domain) (t : string) (r : request) :
  (∀ name, is_Some (w_modules w !! name) → name = module_name_of d t) →
  ¬ (req_domain r = d ∧ req_type_name r = t) →
  ∃ x,
    create r w = (Raise x, w) ∧
    exc_msg x = unsupported_message (req_domain r) (req_type_name r) ∧
    diagnose x = Some MissingModule.
Proof.
  intros Honly Hother.
  assert (w_modules w !! module_name_of (req_domain r) (req_type_name r)
          = None) as Hm.
  { destruct (w_modules w !! _) as [m|] eqn:Hl; [|reflexivity].
    exfalso. apply Hother. apply module_name_of_inj_pair.
    apply Honly. rewrite Hl. eauto. }
  eexists. split; [exact (create_module_missing r w Hm)|].
  split; reflexivity.
Qed.

Lemma X10_other_requests_are_unsupported_witness :
  ∃ x,
    create (ReqCache "Redis" "redis://cache:6379") Samples.redis_world =
      (Raise x, Samples.redis_world) ∧
    exc_msg x = "Unsupported cache type: Redis" ∧
    diagnose x = Some MissingModule.
Proof.
  apply (X10_other_requests_are_unsupported
           Samples.redis_world cache "redis"
           (ReqCache "Redis" "redis://cache:6379")).
  - intros name [m Hm]. simpl in Hm.
    apply lookup_singleton_Some in Hm as [<- _]. reflexivity.
  - simpl. intros [_ H]. discriminate H.
Defined.
